(** * Nexus wellness dashboard: a shallow embedding of the client pipeline

    The dashboard is a React front end: an axios client with two
    interceptors ([services/api.ts]), three data pages (Alerts, Locations,
    Readings) and a login form.  This development embeds the parts of the
    TypeScript sources that decide what the pages store and display:

    - JavaScript numbers are IEEE 754 binary64 values, modelled by Rocq's
      primitive [float]; arithmetic is the kernel's, so a mean computed here
      is bit-for-bit the mean the browser computes;
    - strings are [string]; [localStorage] and header bags are [gmap]s;
    - [async] functions with [try]/[catch]/[finally] run in a small
      state-and-exception monad over the browser and the page state; a
      rejected promise is a thrown value, and effects performed before a
      throw persist;
    - the network, the clock and [Math.random] are oracles of the browser. *)

From Stdlib Require Import ZArith List String Ascii Uint63 Lia.
From Stdlib Require Import Floats.PrimFloat Floats.FloatOps Floats.SpecFloat.
From Stdlib Require Import DecimalString.
From stdpp Require Import gmap strings.
Import ListNotations.

#[local] Set Warnings "-inexact-float".

Local Open Scope string_scope.
Local Open Scope Z_scope.

(** ** JavaScript primitives used by the sources *)

Module JS.

(** *** Strings *)

(** [String.prototype.toLowerCase] and [toUpperCase] on the ASCII range.
    Bytes above 127 are left alone; no character outside ASCII has a lower
    case mapping that is one of the letters of the status words the pages
    compare against, so the classification of a status is the one
    JavaScript makes. *)
Definition lower_ascii (c : ascii) : ascii :=
  let n := nat_of_ascii c in
  if ((65 <=? n) && (n <=? 90))%nat then ascii_of_nat (n + 32) else c.

Definition upper_ascii (c : ascii) : ascii :=
  let n := nat_of_ascii c in
  if ((97 <=? n) && (n <=? 122))%nat then ascii_of_nat (n - 32) else c.

Fixpoint toLowerCase (s : string) : string :=
  match s with
  | EmptyString => EmptyString
  | String c r => String (lower_ascii c) (toLowerCase r)
  end.

Fixpoint toUpperCase (s : string) : string :=
  match s with
  | EmptyString => EmptyString
  | String c r => String (upper_ascii c) (toUpperCase r)
  end.

(** Truthiness of the value [localStorage.getItem] returns: [null] and the
    empty string are falsy, every other string is truthy. *)
Definition truthy (v : option string) : bool :=
  match v with
  | None => false
  | Some s => negb (String.eqb s "")
  end.

(** A value returned by [getItem] inside a template literal: the string
    itself, or the text of [null]. *)
Definition interpolate (v : option string) : string :=
  match v with
  | Some s => s
  | None => "null"
  end.

(** Decimal digits of a non-negative integer, and left padding with zeros. *)
Definition digits (n : Z) : string :=
  NilZero.string_of_uint (N.to_uint (Z.to_N n)).

Fixpoint zeros (k : nat) : string :=
  match k with
  | O => ""
  | S k' => String "0" (zeros k')
  end.

Definition pad_left (width : nat) (s : string) : string :=
  zeros (width - String.length s) ++ s.

(** Template literal [`reading-${i}`]. *)
Definition template_reading (i : nat) : string :=
  "reading-" ++ digits (Z.of_nat i).

(** *** Numbers *)

Abbreviation number := float (only parsing).

(** An array length as a number: lengths are below 2^32, so the conversion
    is exact. *)
Definition of_length (n : nat) : number :=
  PrimFloat.of_uint63 (Uint63.of_Z (Z.of_nat n)).

(** What [Number.prototype.toFixed] returns.  For a finite magnitude of
    10^21 or more the standard hands over to [Number::toString], whose
    exponent notation ("1e+21") is not spelled out here: that result is
    kept as [ViaToString x]. *)
Inductive rendered : Type :=
  | Text (s : string)
  | ViaToString (x : number).

(** The integer [n] for which [n / 10^f - x] is closest to zero, the larger
    one on a tie, for [x = m * 2^e] with [m > 0]. *)
Definition scaled_round (f : nat) (m : positive) (e : Z) : Z :=
  let a := Z.pos m * 10 ^ Z.of_nat f in
  if 0 <=? e then Z.shiftl a e
  else Z.shiftl (a + 2 ^ (- e - 1)) e.

(** Steps 9 to 11 of toFixed: the digits of [n], padded to [f + 1]
    characters, with a point before the last [f]. *)
Definition place_point (f : nat) (n : Z) : string :=
  let m := pad_left (f + 1) (digits n) in
  let k := String.length m in
  match f with
  | O => m
  | _ => substring 0 (k - f) m ++ "." ++ substring (k - f) f m
  end.

Definition toFixed (f : nat) (x : number) : rendered :=
  match Prim2SF x with
  | S754_nan => Text "NaN"
  | S754_infinity false => Text "Infinity"
  | S754_infinity true => Text "-Infinity"
  | S754_zero _ => Text (place_point f 0)
  | S754_finite s m e =>
      if 10 ^ 21 <=? Z.shiftl (Z.pos m) e then ViaToString x
      else Text ((if s then "-" else "") ++ place_point f (scaled_round f m e))
  end.

(** *** Dates *)

(** A [Date] is its time value, milliseconds since the epoch. *)
Definition msPerDay : Z := 86400000.

(** Proleptic Gregorian date of a day number (days since 1970-01-01). *)
Definition civil_from_days (days : Z) : Z * Z * Z :=
  let z := days + 719468 in
  let era := z / 146097 in
  let doe := z - era * 146097 in
  let yoe := (doe - doe / 1460 + doe / 36524 - doe / 146096) / 365 in
  let doy := doe - (365 * yoe + yoe / 4 - yoe / 100) in
  let mp := (5 * doy + 2) / 153 in
  let d := doy - (153 * mp + 2) / 5 + 1 in
  let m := if mp <? 10 then mp + 3 else mp - 9 in
  let y := yoe + era * 400 + (if m <=? 2 then 1 else 0) in
  (y, m, d).

Definition pad_Z (width : nat) (n : Z) : string := pad_left width (digits n).

(** The year of an ISO string: four digits from 0 to 9999, otherwise a sign
    and six digits. *)
Definition iso_year (y : Z) : string :=
  if (0 <=? y) && (y <=? 9999) then pad_Z 4 y
  else (if y <? 0 then "-" else "+") ++ pad_Z 6 (Z.abs y).

(** [Date.prototype.toISOString] of a time value.  JavaScript raises a
    RangeError beyond 8.64e15 ms from the epoch; the dates built by the pages
    are clock readings minus at most a day, far inside that range. *)
Definition toISOString (t : Z) : string :=
  let '(y, m, d) := civil_from_days (t / msPerDay) in
  let r := t mod msPerDay in
  iso_year y ++ "-" ++ pad_Z 2 m ++ "-" ++ pad_Z 2 d ++ "T"
    ++ pad_Z 2 (r / 3600000) ++ ":" ++ pad_Z 2 (r / 60000 mod 60) ++ ":"
    ++ pad_Z 2 (r / 1000 mod 60) ++ "." ++ pad_Z 3 (r mod 1000) ++ "Z".

(** *** Sets *)

(** [[...new Set(values)]]: the values in the order of their first
    occurrence, each once.  [seen] holds the values already in the set. *)
Fixpoint distinct_from (seen values : list string) : list string :=
  match values with
  | [] => []
  | v :: rest =>
      if existsb (String.eqb v) seen then distinct_from seen rest
      else v :: distinct_from (v :: seen) rest
  end.

Definition distinct (values : list string) : list string :=
  distinct_from [] values.

End JS.

(** ** The browser and the effect monad *)

Module Effects.

Record Toast := mkToast {
  title : string;
  description : string;
  variant : option string;
}.

Inductive Method := GET | POST.

Record LoginCredentials := mkCredentials {
  username : string;
  password : string;
}.

(** The axios request configuration, as far as the client sets it. *)
Record RequestConfig := mkConfig {
  method : Method;
  url : string;
  headers : gmap string string;
  body : option LoginCredentials;
  responseType : option string;
}.

(** The error axios rejects with: [error.response] is absent when the
    server could not be reached. *)
Record AxiosError := mkAxiosError {
  message : string;
  response_status : option Z;
}.

(** Values a promise of the sources can reject with. *)
Inductive Exn :=
  | Axios (e : AxiosError)
  | TypeError (msg : string).

(** [error.response?.status] *)
Definition status_of (e : Exn) : option Z :=
  match e with
  | Axios a => response_status a
  | TypeError _ => None
  end.

(** Browser state shared by all pages.  [location] is the path in the
    address bar; [sent] lists the requests handed to the network, oldest
    first; [clock k] is the time value returned by the [k]-th reading of
    the clock and [random k] the [k]-th value of [Math.random]. *)
Record Browser := mkBrowser {
  localStorage : gmap string string;
  location : string;
  toasts : list Toast;
  sent : list RequestConfig;
  clock : nat -> Z;
  clock_reads : nat;
  random : nat -> float;
  random_draws : nat;
}.

(** The browser together with the state of the mounted page component. *)
Record World (P : Type) := mkWorld {
  browser : Browser;
  page : P;
}.
Arguments mkWorld {P} _ _.
Arguments browser {P} _.
Arguments page {P} _.

Inductive Result (A : Type) :=
  | Return (a : A)
  | Throw (e : Exn).
Arguments Return {A} _.
Arguments Throw {A} _.

(** A computation over the world that returns or throws; the world it
    leaves behind is kept in both cases. *)
Definition M (P A : Type) : Type := World P -> Result A * World P.

Section Monad.
Context {P : Type}.

Definition ret {A} (a : A) : M P A := fun w => (Return a, w).

Definition throw {A} (e : Exn) : M P A := fun w => (Throw e, w).

Definition bind {A B} (c : M P A) (k : A -> M P B) : M P B :=
  fun w =>
    match c w with
    | (Return a, w') => k a w'
    | (Throw e, w') => (Throw e, w')
    end.

(** [try { body } catch (e) { handler }] *)
Definition try_catch {A} (body : M P A) (handler : Exn -> M P A) : M P A :=
  fun w =>
    match body w with
    | (Return a, w') => (Return a, w')
    | (Throw e, w') => handler e w'
    end.

(** [try { body } finally { cleanup }] *)
Definition finally {A} (body : M P A) (cleanup : M P unit) : M P A :=
  fun w =>
    match body w with
    | (r, w') =>
        match cleanup w' with
        | (Return _, w'') => (r, w'')
        | (Throw e, w'') => (Throw e, w'')
        end
    end.

Definition modify_browser (f : Browser -> Browser) : M P unit :=
  fun w => (Return tt, mkWorld (f (browser w)) (page w)).

Definition read_browser {A} (f : Browser -> A) : M P A :=
  fun w => (Return (f (browser w)), w).

Definition read_page {A} (f : P -> A) : M P A :=
  fun w => (Return (f (page w)), w).

(** A React state setter. *)
Definition set_page (f : P -> P) : M P unit :=
  fun w => (Return tt, mkWorld (browser w) (f (page w))).

(** [localStorage.getItem], [setItem] and [removeItem]. *)
Definition getItem (key : string) : M P (option string) :=
  read_browser (fun b => localStorage b !! key).

Definition with_storage (f : gmap string string -> gmap string string)
    (b : Browser) : Browser :=
  mkBrowser (f (localStorage b)) (location b) (toasts b) (sent b)
    (clock b) (clock_reads b) (random b) (random_draws b).

Definition setItem (key value : string) : M P unit :=
  modify_browser (with_storage (insert key value)).

Definition removeItem (key : string) : M P unit :=
  modify_browser (with_storage (delete key)).

Definition with_location (path : string) (b : Browser) : Browser :=
  mkBrowser (localStorage b) path (toasts b) (sent b)
    (clock b) (clock_reads b) (random b) (random_draws b).

(** [window.location.href = path]: the document at [path] is loaded. *)
Definition assign_href (path : string) : M P unit :=
  modify_browser (with_location path).

(** [navigate(path)] of the router. *)
Definition navigate (path : string) : M P unit :=
  modify_browser (with_location path).

Definition with_toast (t : Toast) (b : Browser) : Browser :=
  mkBrowser (localStorage b) (location b) (toasts b ++ [t]) (sent b)
    (clock b) (clock_reads b) (random b) (random_draws b).

Definition toast (t : Toast) : M P unit := modify_browser (with_toast t).

Definition with_sent (cfg : RequestConfig) (b : Browser) : Browser :=
  mkBrowser (localStorage b) (location b) (toasts b) (sent b ++ [cfg])
    (clock b) (clock_reads b) (random b) (random_draws b).

(** [Date.now()] and [new Date().getTime()]: one reading of the clock. *)
Definition date_now : M P Z :=
  fun w =>
    let b := browser w in
    (Return (clock b (clock_reads b)),
     mkWorld (mkBrowser (localStorage b) (location b) (toasts b) (sent b)
                (clock b) (S (clock_reads b)) (random b) (random_draws b))
             (page w)).

(** [Math.random()] *)
Definition math_random : M P float :=
  fun w =>
    let b := browser w in
    (Return (random b (random_draws b)),
     mkWorld (mkBrowser (localStorage b) (location b) (toasts b) (sent b)
                (clock b) (clock_reads b) (random b) (S (random_draws b)))
             (page w)).
End Monad.

Declare Scope js_scope.
Delimit Scope js_scope with js.
Notation "x <- c ;; k" := (bind c (fun x => k))
  (at level 100, c at next level, right associativity) : js_scope.
Notation "c ;; k" := (bind c (fun _ => k))
  (at level 100, right associativity) : js_scope.

End Effects.

(** ** services/api.ts: the axios client and the resource accessors *)

Module Api.
Import Effects.
Local Open Scope js_scope.

(** The entities received from the network. *)
Record Alert := mkAlert {
  alert_id : string;
  alert_type : string;
  alert_message : string;
  alert_location : string;
  alert_timestamp : string;
  severity : string;
}.

Record Location := mkLocation {
  location_id : string;
  village : string;
  district : string;
  state : string;
  latitude : float;
  longitude : float;
  status : string;
}.

Record Reading := mkReading {
  reading_id : string;
  reading_location : string;
  ph : float;
  turbidity : float;
  temperature : float;
  reading_timestamp : string;
}.

Record Report := mkReport {
  report_id : string;
  report_title : string;
  report_description : string;
  generatedAt : string;
  downloadUrl : string;
  report_type : string;
}.

(** A response as the caller sees it: [response.data] has the type the
    accessor declares for it. *)
Record Response (D : Type) := mkResponse {
  status_code : Z;
  data : D;
}.
Arguments mkResponse {D} _ _.
Arguments status_code {D} _.
Arguments data {D} _.

(** What the network does with a request: it answers with a status and a
    payload, or it cannot be reached. *)
Inductive Outcome (D : Type) :=
  | Responded (r : Response D)
  | Unreachable.
Arguments Responded {D} _.
Arguments Unreachable {D}.

Definition Network (D : Type) : Type := RequestConfig -> Outcome D.

(** The body of a login response.  [response.data] may be [null] (or
    missing), an object with a [token], or an object without one. *)
Inductive LoginData :=
  | NoData
  | WithToken (token : string)
  | WithoutToken.

Definition auth_token : string := "auth_token".

(** Headers of the instance made by [axios.create]: the library's [Accept]
    default and the [Content-Type] given in the source. *)
Definition default_headers : gmap string string :=
  <["Content-Type" := "application/json"]>
    (<["Accept" := "application/json, text/plain, */*"]> ∅).

Section Client.
Context {P : Type}.

(** [api.interceptors.request.use((config) => ...)] *)
Definition request_interceptor (config : RequestConfig) : M P RequestConfig :=
  token <- getItem auth_token ;;
  if JS.truthy token
  then ret (mkConfig (method config) (url config)
              (<["Authorization" := "Bearer " ++ JS.interpolate token]>
                 (headers config))
              (body config) (responseType config))
  else ret config.

(** axios' default [validateStatus] and [settle]: a status from 200 to
    299 resolves, any other rejects with an error that carries the
    response; an unreachable server rejects with an error without one. *)
Definition validateStatus (status : Z) : bool :=
  (200 <=? status) && (status <? 300).

Definition settle {D} (out : Outcome D) : M P (Response D) :=
  match out with
  | Responded r =>
      if validateStatus (status_code r) then ret r
      else throw (Axios (mkAxiosError
             ("Request failed with status code " ++ JS.digits (status_code r))
             (Some (status_code r))))
  | Unreachable => throw (Axios (mkAxiosError "Network Error" None))
  end.

(** The adapter: the request goes out and the outcome is settled. *)
Definition dispatch {D} (net : Network D) (config : RequestConfig)
    : M P (Response D) :=
  modify_browser (with_sent config) ;;
  settle (net config).

(** [api.interceptors.response.use((response) => response, (error) => ...)] *)
Definition response_fulfilled {D} (response : Response D) : M P (Response D) :=
  ret response.

Definition response_rejected {D} (error : Exn) : M P (Response D) :=
  (match status_of error with
   | Some s =>
       if s =? 401
       then removeItem auth_token ;; assign_href "/login"
       else ret tt
   | None => ret tt
   end) ;;
  throw error.

(** A request through the instance: request interceptor, adapter,
    response interceptor. *)
Definition request {D} (net : Network D) (config : RequestConfig)
    : M P (Response D) :=
  config' <- request_interceptor config ;;
  try_catch (r <- dispatch net config' ;; response_fulfilled r)
            response_rejected.

Definition api_get {D} (net : Network D) (path : string)
    (rtype : option string) : M P (Response D) :=
  request net (mkConfig GET path default_headers None rtype).

Definition api_post {D} (net : Network D) (path : string)
    (payload : LoginCredentials) : M P (Response D) :=
  request net (mkConfig POST path default_headers (Some payload) None).

(** [authAPI], [alertsAPI], [locationsAPI], [readingsAPI], [reportsAPI] *)
Definition login (net : Network LoginData) (credentials : LoginCredentials)
    : M P (Response LoginData) :=
  api_post net "/api/login" credentials.

Definition logout : M P unit := removeItem auth_token.

Definition getAlerts (net : Network (list Alert)) : M P (Response (list Alert)) :=
  api_get net "/api/alerts" None.

Definition getLocations (net : Network (list Location))
    : M P (Response (list Location)) :=
  api_get net "/api/locations" None.

Definition getReadings (net : Network (list Reading))
    : M P (Response (list Reading)) :=
  api_get net "/api/readings" None.

Definition getReports (net : Network (list Report))
    : M P (Response (list Report)) :=
  api_get net "/api/reports" None.

Definition downloadReport (net : Network string) (reportId : string)
    : M P (Response string) :=
  api_get net ("/api/reports/" ++ reportId ++ "/download") (Some "blob").
End Client.

End Api.

(** ** pages/Alerts.tsx *)

Module Alerts.
Import Effects Api.
Local Open Scope js_scope.

Record State := mkState {
  alerts : list Alert;
  loading : bool;
}.

(** [useState<Alert[]>([])], [useState(true)] *)
Definition initial : State := mkState [] true.

Definition setAlerts (v : list Alert) : M State unit :=
  set_page (fun s => mkState v (loading s)).

Definition setLoading (v : bool) : M State unit :=
  set_page (fun s => mkState (alerts s) v).

(** The three demo alerts of the [catch] block; the timestamps are taken
    from the clock when the block runs. *)
Definition mockAlerts (t0 t1 t2 : Z) : list Alert :=
  [ mkAlert "1" "critical" "Water pH level extremely low (4.2)"
      "Riverside Village, District A" (JS.toISOString t0) "critical";
    mkAlert "2" "warning" "High turbidity detected (85 NTU)"
      "Mountain Springs, District B" (JS.toISOString (t1 - 3600000)) "warning";
    mkAlert "3" "info" "System maintenance scheduled"
      "Central Processing Unit" (JS.toISOString (t2 - 7200000)) "info" ].

Definition fetchAlerts (net : Network (list Alert)) : M State unit :=
  finally
    (try_catch
       (setLoading true ;;
        response <- getAlerts net ;;
        setAlerts (data response))
       (fun error =>
          toast (mkToast "Error fetching alerts" "Could not load alerts data"
                   (Some "destructive")) ;;
          t0 <- date_now ;;
          t1 <- date_now ;;
          t2 <- date_now ;;
          setAlerts (mockAlerts t0 t1 t2)))
    (setLoading false).

Definition getSeverityColor (sev : string) : string :=
  if String.eqb sev "critical" then "bg-status-critical text-white"
  else if String.eqb sev "warning" then "bg-status-warning text-white"
  else if String.eqb sev "info" then "bg-status-info text-white"
  else "bg-muted text-muted-foreground".

(** The summary cards: [alerts.filter(a => a.severity === label).length] *)
Definition countBySeverity (label : string) (l : list Alert) : nat :=
  length (List.filter (fun a => String.eqb (severity a) label) l).

Definition criticalCount : list Alert -> nat := countBySeverity "critical".
Definition warningCount : list Alert -> nat := countBySeverity "warning".
Definition infoCount : list Alert -> nat := countBySeverity "info".

(** The table of recent alerts: a spinner while loading, otherwise one row
    per alert of the state, in order. *)
Inductive View :=
  | Spinner
  | Rows (rows : list Alert).

Definition render (s : State) : View :=
  if loading s then Spinner else Rows (alerts s).

(** A row of the table: the alert, the class of its badge
    [getSeverityColor(alert.severity)] and the badge text
    [alert.severity.toUpperCase()]. *)
Record Row := mkRow {
  row_alert : Alert;
  badge_class : string;
  badge_text : string;
}.

Definition tableRows (l : list Alert) : list Row :=
  map (fun a => mkRow a (getSeverityColor (severity a))
                  (JS.toUpperCase (severity a))) l.

End Alerts.

(** ** pages/Locations.tsx *)

Module Locations.
Import Effects Api.
Local Open Scope js_scope.

Inductive ViewMode := MapView | TableView.

Record State := mkState {
  locations : list Location;
  loading : bool;
  viewMode : ViewMode;
}.

Definition initial : State := mkState [] true MapView.

Definition setLocations (v : list Location) : M State unit :=
  set_page (fun s => mkState v (loading s) (viewMode s)).

Definition setLoading (v : bool) : M State unit :=
  set_page (fun s => mkState (locations s) v (viewMode s)).

Definition mockLocations : list Location :=
  [ mkLocation "1" "Riverside Village" "District A" "Maharashtra"
      19.0760%float 72.8777%float "active";
    mkLocation "2" "Mountain Springs" "District B" "Maharashtra"
      19.1136%float 72.8697%float "warning";
    mkLocation "3" "Valley View" "District C" "Maharashtra"
      19.0896%float 72.8656%float "inactive" ].

Definition fetchLocations (net : Network (list Location)) : M State unit :=
  finally
    (try_catch
       (setLoading true ;;
        response <- getLocations net ;;
        setLocations (data response))
       (fun error =>
          toast (mkToast "Error fetching locations"
                   "Could not load locations data" (Some "destructive")) ;;
          setLocations mockLocations))
    (setLoading false).

(** [switch (status.toLowerCase())] *)
Definition getStatusColor (st : string) : string :=
  let s := JS.toLowerCase st in
  if String.eqb s "active" then "bg-status-success text-white"
  else if String.eqb s "warning" then "bg-status-warning text-white"
  else if String.eqb s "inactive" then "bg-muted text-muted-foreground"
  else "bg-muted text-muted-foreground".

(** The summary cards: [locations.filter(l => l.status === label).length] *)
Definition countByStatus (label : string) (l : list Location) : nat :=
  length (List.filter (fun x => String.eqb (status x) label) l).

Definition totalCount (l : list Location) : nat := length l.
Definition activeCount : list Location -> nat := countByStatus "active".
Definition warningCount : list Location -> nat := countByStatus "warning".
Definition inactiveCount : list Location -> nat := countByStatus "inactive".

(** A row of the table: the record, the class of its badge and the badge
    text [location.status.toUpperCase()]. *)
Record Row := mkRow {
  row_location : Location;
  badge_class : string;
  badge_text : string;
}.

Definition tableRows (l : list Location) : list Row :=
  map (fun x => mkRow x (getStatusColor (status x)) (JS.toUpperCase (status x))) l.

Definition setViewMode (v : ViewMode) : M State unit :=
  set_page (fun s => mkState (locations s) (loading s) v).

(** What the page shows below the cards: in map mode a placeholder with
    the number of stations, in table mode one row per location. *)
Inductive View :=
  | MapPlaceholder (stations : nat)
  | Table (rows : list Row).

Definition render (s : State) : View :=
  match viewMode s with
  | MapView => MapPlaceholder (length (locations s))
  | TableView => Table (tableRows (locations s))
  end.

End Locations.

(** ** pages/Readings.tsx *)

Module Readings.
Import Effects Api.
Local Open Scope js_scope.

Record State := mkState {
  readings : list Reading;
  loading : bool;
  selectedLocation : string;
  timeRange : string;
}.

Definition initial : State := mkState [] true "all" "24h".

Definition setReadings (v : list Reading) : M State unit :=
  set_page (fun s => mkState v (loading s) (selectedLocation s) (timeRange s)).

Definition setLoading (v : bool) : M State unit :=
  set_page (fun s => mkState (readings s) v (selectedLocation s) (timeRange s)).

Definition setSelectedLocation (v : string) : M State unit :=
  set_page (fun s => mkState (readings s) (loading s) v (timeRange s)).

(** [i % 3 === 0 ? 'Riverside Village' : i % 3 === 1 ? 'Mountain Springs'
    : 'Valley View'] *)
Definition mockLocationName (i : nat) : string :=
  if (i mod 3 =? 0)%nat then "Riverside Village"
  else if (i mod 3 =? 1)%nat then "Mountain Springs"
  else "Valley View".

(** The record pushed by iteration [i] of the loop, from the three values
    [Math.random] returned in that iteration. *)
Definition mockReading (now : Z) (i : nat) (r1 r2 r3 : float) : Reading :=
  let timestamp := now - Z.of_nat i * 60 * 60 * 1000 in
  mkReading (JS.template_reading i) (mockLocationName i)
    (6.5 + r1 * 2)%float (20 + r2 * 60)%float (22 + r3 * 8)%float
    (JS.toISOString timestamp).

(** [for (let i = 0; i < 24; i++) { ... mockReadings.push({...}) }], with
    the array built so far as accumulator. *)
Fixpoint mockLoop (fuel i : nat) (now : Z) (mockReadings : list Reading)
    : M State (list Reading) :=
  match fuel with
  | O => ret mockReadings
  | S fuel' =>
      if (i <? 24)%nat then
        r1 <- math_random ;;
        r2 <- math_random ;;
        r3 <- math_random ;;
        mockLoop fuel' (S i) now (mockReadings ++ [mockReading now i r1 r2 r3])%list
      else ret mockReadings
  end.

Definition fetchReadings (net : Network (list Reading)) : M State unit :=
  finally
    (try_catch
       (setLoading true ;;
        response <- getReadings net ;;
        setReadings (data response))
       (fun error =>
          toast (mkToast "Error fetching readings"
                   "Could not load sensor readings" (Some "destructive")) ;;
          now <- date_now ;;
          mockReadings <- mockLoop 25 0 now [] ;;
          setReadings (rev mockReadings)))
    (setLoading false).

(** [selectedLocation === 'all' ? readings
     : readings.filter(reading => reading.location === selectedLocation)] *)
Definition filteredReadings (rs : list Reading) (selected : string)
    : list Reading :=
  if String.eqb selected "all" then rs
  else List.filter (fun reading => String.eqb (reading_location reading) selected) rs.

Record Averages := mkAverages {
  avg_ph : float;
  avg_turbidity : float;
  avg_temperature : float;
}.

(** [array.reduce((sum, r) => sum + field(r), 0)] *)
Definition reduce_sum (field : Reading -> float) (l : list Reading) : float :=
  fold_left (fun sum r => (sum + field r)%float) l 0%float.

(** A computation that records the divisor of every division it performs. *)
Definition Traced (A : Type) : Type := A * list float.

Definition divide (x y : float) : Traced float := ((x / y)%float, [y]).

(** [filteredReadings.length > 0 ? { ph: sum / length, ... }
     : { ph: 0, turbidity: 0, temperature: 0 }], with the divisions traced. *)
Definition currentAveragesTraced (filtered : list Reading) : Traced Averages :=
  if (0 <? length filtered)%nat then
    let n := JS.of_length (length filtered) in
    let '(p, d1) := divide (reduce_sum ph filtered) n in
    let '(t, d2) := divide (reduce_sum turbidity filtered) n in
    let '(c, d3) := divide (reduce_sum temperature filtered) n in
    (mkAverages p t c, (d1 ++ d2 ++ d3)%list)
  else (mkAverages 0 0 0, []).

Definition currentAverages (filtered : list Reading) : Averages :=
  fst (currentAveragesTraced filtered).

(** The values the page derives from its state on a render: the dataset
    behind the charts and the three summary cards (the number texts
    [toFixed(2)], [toFixed(1)], [toFixed(1)]; the unit suffixes are fixed). *)
Record Display := mkDisplay {
  dataset : list Reading;
  shown_ph : JS.rendered;
  shown_turbidity : JS.rendered;
  shown_temperature : JS.rendered;
}.

Definition render (s : State) : Display :=
  let filtered := filteredReadings (readings s) (selectedLocation s) in
  let avg := currentAverages filtered in
  mkDisplay filtered
    (JS.toFixed 2 (avg_ph avg))
    (JS.toFixed 1 (avg_turbidity avg))
    (JS.toFixed 1 (avg_temperature avg)).

(** [const locations = [...new Set(readings.map(r => r.location))]]: the
    entries of the filter after "All Locations". *)
Definition locations (rs : list Reading) : list string :=
  JS.distinct (map reading_location rs).

(** The values the select offers. *)
Definition selectValues (rs : list Reading) : list string :=
  "all" :: locations rs.

End Readings.

(** ** The login page *)

Module Login.
Import Effects Api.
Local Open Scope js_scope.

Record State := mkState {
  isLoading : bool;
  credentials : LoginCredentials;
}.

Definition initial : State := mkState false (mkCredentials "" "").

Definition setIsLoading (v : bool) : M State unit :=
  set_page (fun s => mkState v (credentials s)).

(** [const { token } = response.data]: destructuring [null] throws; a
    missing property is [undefined]. *)
Definition destructure_token (d : LoginData) : M State (option string) :=
  match d with
  | NoData => throw (TypeError "Cannot destructure property 'token'")
  | WithToken t => ret (Some t)
  | WithoutToken => ret None
  end.

(** [localStorage.setItem] stores the string of its argument. *)
Definition to_storage_string (v : option string) : string :=
  match v with
  | Some t => t
  | None => "undefined"
  end.

Definition handleSubmit (net : Network LoginData) : M State unit :=
  setIsLoading true ;;
  finally
    (try_catch
       (creds <- read_page credentials ;;
        response <- login net creds ;;
        token <- destructure_token (data response) ;;
        setItem auth_token (to_storage_string token) ;;
        toast (mkToast "Login successful"
                 "Welcome to Smart Health Monitoring System" None) ;;
        navigate "/alerts")
       (fun error =>
          toast (mkToast "Login failed" "Invalid username or password"
                   (Some "destructive"))))
    (setIsLoading false).

(** The [onChange] handlers of the two inputs:
    [setCredentials({ ...credentials, username: e.target.value })]. *)
Definition changeUsername (value : string) : M State unit :=
  set_page (fun s => mkState (isLoading s)
                       (mkCredentials value (password (credentials s)))).

Definition changePassword (value : string) : M State unit :=
  set_page (fun s => mkState (isLoading s)
                       (mkCredentials (username (credentials s)) value)).

End Login.

(** ** components/layout/DashboardLayout.tsx *)

Module Layout.
Import Effects Api.
Local Open Scope js_scope.

Record NavItem := mkNavItem {
  nav_name : string;
  nav_href : string;
}.

Definition navigation : list NavItem :=
  [ mkNavItem "Alerts" "/alerts";
    mkNavItem "Locations" "/locations";
    mkNavItem "Readings" "/readings";
    mkNavItem "Reports" "/reports" ].

Record State := mkState {
  sidebarOpen : bool;
}.

Definition initial : State := mkState false.

Definition setSidebarOpen (v : bool) : M State unit :=
  set_page (fun _ => mkState v).

Definition handleLogout : M State unit :=
  removeItem auth_token ;;
  navigate "/login".

(** [const isActive = location.pathname === item.href] *)
Definition isActive (pathname : string) (item : NavItem) : bool :=
  String.eqb pathname (nav_href item).

Definition linkClass (pathname : string) (item : NavItem) : string :=
  if isActive pathname item
  then "bg-gradient-primary text-white shadow-card"
  else "text-foreground hover:bg-muted hover:text-foreground".

(** The sidebar: one link per navigation entry, with its class. *)
Definition sidebarLinks (pathname : string) : list (NavItem * string) :=
  map (fun item => (item, linkClass pathname item)) navigation.

End Layout.

(** ** The vocabulary of the specification *)

Module Spec.
Import Effects Api.

(** The arithmetic mean of a list of numbers, in the arithmetic of
    JavaScript numbers: their total, accumulated from 0 in list order,
    divided by how many there are. *)
Definition total (xs : list float) : float :=
  fold_left PrimFloat.add xs 0%float.

Definition arithmetic_mean (xs : list float) : float :=
  (total xs / JS.of_length (length xs))%float.

(** The sublist of the readings whose location is the selected one. *)
Fixpoint at_location (selected : string) (rs : list Reading) : list Reading :=
  match rs with
  | [] => []
  | r :: rest =>
      if string_dec (reading_location r) selected
      then r :: at_location selected rest
      else at_location selected rest
  end.

(** How many of the labels are the given one. *)
Definition occurrences (label : string) (labels : list string) : nat :=
  count_occ string_dec labels label.

(** A fetch fails when the request is rejected: the server cannot be
    reached, or it answers with a status outside 200..299. *)
Definition rejected {D} (out : Outcome D) : Prop :=
  match out with
  | Responded r => validateStatus (status_code r) = false
  | Unreachable => True
  end.

(** The error the client rejects with for a rejected outcome. *)
Definition transport_error {D} (out : Outcome D) : AxiosError :=
  match out with
  | Responded r =>
      mkAxiosError
        ("Request failed with status code " ++ JS.digits (status_code r))
        (Some (status_code r))
  | Unreachable => mkAxiosError "Network Error" None
  end.

(** The configuration that reaches the network for [config] when the
    browser is [b]: what [request_interceptor] returns there. *)
Definition outgoing (config : RequestConfig) (b : Browser) : RequestConfig :=
  match localStorage b !! auth_token with
  | Some t =>
      if String.eqb t "" then config
      else mkConfig (method config) (url config)
             (<["Authorization" := "Bearer " ++ t]> (headers config))
             (body config) (responseType config)
  | None => config
  end.

(** The request of the login accessor, and the two notifications of the
    login form. *)
Definition login_config (c : LoginCredentials) : RequestConfig :=
  mkConfig POST "/api/login" default_headers (Some c) None.

Definition success_toast : Toast :=
  mkToast "Login successful" "Welcome to Smart Health Monitoring System" None.

Definition failure_toast : Toast :=
  mkToast "Login failed" "Invalid username or password" (Some "destructive").

(** The world once [config] has been handed to the network, and the world
    after the forced sign-out of the response interceptor. *)
Definition after_send {P} (config : RequestConfig) (w : World P) : World P :=
  mkWorld (with_sent config (browser w)) (page w).

Definition signed_out {P} (w : World P) : World P :=
  mkWorld (with_location "/login"
             (with_storage (delete auth_token) (browser w)))
          (page w).

(** How many readings are at a location, and the readings whose location
    is not among [seen]. *)
Definition count_at (s : string) (rs : list Reading) : nat :=
  length (List.filter (fun r => String.eqb (reading_location r) s) rs).

Definition not_seen (seen : list string) (rs : list Reading) : list Reading :=
  List.filter
    (fun r => negb (existsb (String.eqb (reading_location r)) seen)) rs.

(** The severities and the statuses of the data model. *)
Definition known_severity (s : string) : Prop :=
  s = "critical" \/ s = "warning" \/ s = "info".

Definition known_status (s : string) : Prop :=
  s = "active" \/ s = "warning" \/ s = "inactive".

(** The notifications of the three data pages. *)
Definition destructive (title description : string) : Toast :=
  mkToast title description (Some "destructive").

Definition alerts_toast : Toast :=
  destructive "Error fetching alerts" "Could not load alerts data".

Definition locations_toast : Toast :=
  destructive "Error fetching locations" "Could not load locations data".

Definition readings_toast : Toast :=
  destructive "Error fetching readings" "Could not load sensor readings".

(** An outcome the client resolves with. *)
Definition accepted {D} (out : Outcome D) (r : Response D) : Prop :=
  out = Responded r /\ validateStatus (status_code r) = true.

(** What a rejected outcome does to the storage and to the location: the
    forced sign-out on a 401, nothing otherwise. *)
Definition unauthorized {D} (out : Outcome D) : bool :=
  match response_status (transport_error out) with
  | Some s => s =? 401
  | None => false
  end.

Definition storage_after {D} (out : Outcome D) (b : Browser)
    : gmap string string :=
  if unauthorized out then delete auth_token (localStorage b)
  else localStorage b.

Definition location_after {D} (out : Outcome D) (b : Browser) : string :=
  if unauthorized out then "/login" else location b.

End Spec.

(** ** Sample data *)

Module Samples.
Import Effects Api.

(** Three readings at one location with pH 6, 7 and 8, and one elsewhere. *)
Definition riverside (n : string) (p : float) : Reading :=
  mkReading n "Riverside Village" p 30 25 "2024-01-01T00:00:00.000Z".

Definition three_at_riverside : list Reading :=
  [riverside "a" 6; riverside "b" 7; riverside "c" 8].

Definition mixed_readings : list Reading :=
  [riverside "a" 6;
   mkReading "x" "Valley View" 9.5 70 28 "2024-01-01T01:00:00.000Z";
   riverside "b" 7; riverside "c" 8].

(** Four alerts with severities critical, warning, critical, info. *)
Definition alert_of (n sev : string) : Alert :=
  mkAlert n sev "message" "somewhere" "2024-01-01T00:00:00.000Z" sev.

Definition four_alerts : list Alert :=
  [alert_of "1" "critical"; alert_of "2" "warning";
   alert_of "3" "critical"; alert_of "4" "info"].

(** A browser with the given storage, sitting at [path]; the clock stands
    at 2023-11-14T22:13:20Z and [Math.random] keeps returning [r]. *)
Definition browser_at (storage : gmap string string) (path : string)
    (r : float) : Browser :=
  mkBrowser storage path [] [] (fun _ => 1700000000000) 0 (fun _ => r) 0.

(** The same browser a day later. *)
Definition next_day (b : Browser) : Browser :=
  mkBrowser (localStorage b) (location b) (toasts b) (sent b)
    (fun k => clock b k + 86400000) (clock_reads b)
    (random b) (random_draws b).

(** Networks: one that cannot be reached, one that answers every request
    with the same status and payload. *)
Definition down {D} : Network D := fun _ => Unreachable.

Definition answers {D} (status : Z) (payload : D) : Network D :=
  fun _ => Responded (mkResponse status payload).

(** A station whose status is spelled with a capital letter. *)
Definition station (st : string) : Location :=
  mkLocation "7" "Lake Town" "District D" "Kerala" 9.9312 76.2673 st.

(** Stations in the three states, one of them spelled in capitals. *)
Definition stations : list Location :=
  [station "active"; station "WARNING"; station "inactive"; station "retired"].

(** A world for the layout shell. *)
Definition signed_in (path : string) : World Layout.State :=
  mkWorld (browser_at (<["theme" := "dark"]> {[auth_token := "tok"]}) path 0.5)
          Layout.initial.

End Samples.

(** ** The fallback datasets in closed form *)

Module Expected.
Import Effects Api.

(** The requests of the three data accessors. *)
Definition get_config (path : string) : RequestConfig :=
  mkConfig GET path default_headers None None.

(** The alerts of the fallback when the next three clock readings of the
    browser are taken. *)
Definition alerts_from (b : Browser) : list Alert :=
  let n := clock_reads b in
  Alerts.mockAlerts (clock b n) (clock b (S n)) (clock b (S (S n))).

(** The fields of an alert that do not come from the clock. *)
Definition constant_fields (a : Alert)
    : string * string * string * string * string :=
  (alert_id a, alert_type a, severity a, alert_message a, alert_location a).

(** The readings of the fallback when the next clock reading and the next
    72 values of [Math.random] of the browser are taken: iteration [i]
    uses the values number [3 i], [3 i + 1] and [3 i + 2]; the array is
    reversed at the end. *)
Definition reading_from (b : Browser) (i : nat) : Reading :=
  let d := random_draws b in
  Readings.mockReading (clock b (clock_reads b)) i
    (random b (3 * i + d)) (random b (3 * i + 1 + d)) (random b (3 * i + 2 + d)).

Definition readings_from (b : Browser) : list Reading :=
  rev (map (reading_from b) (seq 0 24)).

(** What the fallbacks hold on every run: the clock-free fields of the
    three alerts, and the ids and location names of the 24 readings, from
    [reading-23] down to [reading-0]. *)
Definition alert_constants : list (string * string * string * string * string) :=
  [("1", "critical", "critical", "Water pH level extremely low (4.2)",
    "Riverside Village, District A");
   ("2", "warning", "warning", "High turbidity detected (85 NTU)",
    "Mountain Springs, District B");
   ("3", "info", "info", "System maintenance scheduled",
    "Central Processing Unit")].

Definition reading_ids : list string :=
  ["reading-23"; "reading-22"; "reading-21"; "reading-20"; "reading-19";
   "reading-18"; "reading-17"; "reading-16"; "reading-15"; "reading-14";
   "reading-13"; "reading-12"; "reading-11"; "reading-10"; "reading-9";
   "reading-8"; "reading-7"; "reading-6"; "reading-5"; "reading-4";
   "reading-3"; "reading-2"; "reading-1"; "reading-0"].

Definition reading_locations : list string :=
  ["Valley View"; "Mountain Springs"; "Riverside Village";
   "Valley View"; "Mountain Springs"; "Riverside Village";
   "Valley View"; "Mountain Springs"; "Riverside Village";
   "Valley View"; "Mountain Springs"; "Riverside Village";
   "Valley View"; "Mountain Springs"; "Riverside Village";
   "Valley View"; "Mountain Springs"; "Riverside Village";
   "Valley View"; "Mountain Springs"; "Riverside Village";
   "Valley View"; "Mountain Springs"; "Riverside Village"].

(** What a fetch of a data page comes to.  [fetch] is the fetch of the page,
    [path] the address it asks for, [shown d s] the page state that holds
    the response body [d], [fallback b s] the one that holds the fallback
    built in browser [b], and [notice] the notification of the page.  The
    fetch returns, it has sent its one request, and either the request was
    accepted and the page holds the response, or it was rejected and the
    page holds the fallback, with the notification raised and the sign-out
    of a 401 done. *)
Definition fetch_cases {D S : Type}
    (fetch : Network D -> M S unit) (path : string)
    (shown : D -> S -> S) (fallback : Browser -> S -> S) (notice : Toast)
    (net : Network D) (w : World S) : Prop :=
  let b := browser w in
  let sentc := Spec.outgoing (get_config path) b in
  let run := fetch net w in
  let b' := browser (snd run) in
  fst run = Return tt
  /\ sent b' = (sent b ++ [sentc])%list
  /\ ((exists r, Spec.accepted (net sentc) r
                 /\ page (snd run) = shown (data r) (page w)
                 /\ toasts b' = toasts b
                 /\ localStorage b' = localStorage b
                 /\ location b' = location b)
      \/ (Spec.rejected (net sentc)
          /\ page (snd run) = fallback b (page w)
          /\ toasts b' = (toasts b ++ [notice])%list
          /\ localStorage b' = Spec.storage_after (net sentc) b
          /\ location b' = Spec.location_after (net sentc) b)).

End Expected.

(** * Properties *)

(** ** The JavaScript primitives *)

Module JSFacts.

Example toLowerCase_mixed : JS.toLowerCase "WaRnInG" = "warning".
Proof. reflexivity. Qed.

Example toFixed_seven : JS.toFixed 2 7%float = JS.Text "7.00".
Proof. vm_compute. reflexivity. Qed.

Example toFixed_small : JS.toFixed 2 (-0.001)%float = JS.Text "-0.00".
Proof. vm_compute. reflexivity. Qed.

Example toFixed_tie : JS.toFixed 2 0.125%float = JS.Text "0.13".
Proof. vm_compute. reflexivity. Qed.

Example toFixed_one : JS.toFixed 1 1234.56%float = JS.Text "1234.6".
Proof. vm_compute. reflexivity. Qed.

Example toFixed_inf : JS.toFixed 2 (1e308 + 1e308)%float = JS.Text "Infinity".
Proof. vm_compute. reflexivity. Qed.

Example toISOString_epoch : JS.toISOString 0 = "1970-01-01T00:00:00.000Z".
Proof. vm_compute. reflexivity. Qed.

Example toISOString_2023 :
  JS.toISOString 1700000000000 = "2023-11-14T22:13:20.000Z".
Proof. vm_compute. reflexivity. Qed.

Example toISOString_leap :
  JS.toISOString 951782400000 = "2000-02-29T00:00:00.000Z".
Proof. vm_compute. reflexivity. Qed.

Example toISOString_before : JS.toISOString (-1) = "1969-12-31T23:59:59.999Z".
Proof. vm_compute. reflexivity. Qed.

Lemma length_append (s t : string) :
  String.length (s ++ t) = (String.length s + String.length t)%nat.
Proof. induction s as [|c r IH]; simpl; [reflexivity|]. rewrite IH. reflexivity. Qed.

Lemma length_zeros k : String.length (JS.zeros k) = k.
Proof. induction k as [|k IH]; simpl; [reflexivity|]. rewrite IH. reflexivity. Qed.

Lemma length_pad_left width s :
  (width <= String.length (JS.pad_left width s))%nat.
Proof. unfold JS.pad_left. rewrite length_append, length_zeros. lia. Qed.

Lemma length_substring n m s :
  (n + m <= String.length s)%nat -> String.length (substring n m s) = m.
Proof.
  revert n m. induction s as [|c r IH]; intros n m H; simpl in H.
  - assert (n = 0%nat) by lia. assert (m = 0%nat) by lia. subst. reflexivity.
  - destruct n as [|n]; simpl.
    + destruct m as [|m]; simpl; [reflexivity|]. rewrite IH; [reflexivity|]. simpl. lia.
    + apply IH. lia.
Qed.

(** With at least one decimal asked for, the digits end with a point and
    exactly that many characters. *)
Lemma place_point_shape f n :
  exists a b, JS.place_point (S f) n = a ++ "." ++ b /\ String.length b = S f.
Proof.
  unfold JS.place_point.
  set (m := JS.pad_left (S f + 1) (JS.digits n)).
  exists (substring 0 (String.length m - S f) m),
         (substring (String.length m - S f) (S f) m).
  split; [reflexivity|].
  apply length_substring.
  pose proof (length_pad_left (S f + 1) (JS.digits n)). fold m in H. lia.
Qed.

(** The texts toFixed produces: for a number that is finite and below
    10^21 in magnitude, an optional sign, the integer digits, a point and
    exactly the decimals asked for; otherwise NaN, an infinity, or the
    exponent notation of Number::toString. *)
Lemma toFixed_shape f x :
  (exists sign a b,
      JS.toFixed (S f) x = JS.Text (sign ++ a ++ "." ++ b)
      /\ String.length b = S f /\ (sign = "" \/ sign = "-"))
  \/ JS.toFixed (S f) x = JS.Text "NaN"
  \/ JS.toFixed (S f) x = JS.Text "Infinity"
  \/ JS.toFixed (S f) x = JS.Text "-Infinity"
  \/ JS.toFixed (S f) x = JS.ViaToString x.
Proof.
  unfold JS.toFixed.
  destruct (Prim2SF x) as [s|[]| |s m e].
  - left. destruct (place_point_shape f 0) as (a & b & E & L).
    exists "", a, b. rewrite E. auto.
  - auto.
  - auto.
  - auto.
  - destruct (10 ^ 21 <=? Z.shiftl (Z.pos m) e); [auto 6|].
    left. destruct (place_point_shape f (JS.scaled_round (S f) m e))
      as (a & b & E & L).
    exists (if s then "-" else ""), a, b. rewrite E.
    split; [reflexivity|]. split; [exact L|]. destruct s; auto.
Qed.

End JSFacts.

(** ** Readings: the location filter and the averages *)

Module ReadingsFacts.
Import Effects Api Readings.

Lemma filter_at_location selected rs :
  List.filter (fun r => String.eqb (reading_location r) selected) rs
  = Spec.at_location selected rs.
Proof.
  induction rs as [|r rest IH]; simpl; [reflexivity|].
  destruct (string_dec (reading_location r) selected) as [E|N].
  - apply String.eqb_eq in E. rewrite E, IH. reflexivity.
  - apply String.eqb_neq in N. rewrite N. exact IH.
Qed.

Lemma at_location_In selected rs r :
  In r (Spec.at_location selected rs)
  <-> In r rs /\ reading_location r = selected.
Proof.
  induction rs as [|x rest IH]; simpl; [tauto|].
  destruct (string_dec (reading_location x) selected) as [E|N]; simpl;
    rewrite IH; intuition (subst; auto; congruence).
Qed.

Lemma at_location_sublist selected rs :
  sublist (Spec.at_location selected rs) rs.
Proof.
  induction rs as [|x rest IH]; simpl; [constructor|].
  destruct (string_dec (reading_location x) selected);
    [apply sublist_skip | apply sublist_cons]; exact IH.
Qed.

(** The page's running total of a field is the total of the field values. *)
Lemma reduce_sum_total field rs :
  reduce_sum field rs = Spec.total (map field rs).
Proof.
  unfold reduce_sum, Spec.total. generalize 0%float.
  induction rs as [|r rest IH]; intros acc; simpl; [reflexivity|apply IH].
Qed.

Lemma currentAverages_cons r rest :
  currentAverages (r :: rest)
  = mkAverages (Spec.arithmetic_mean (map ph (r :: rest)))
      (Spec.arithmetic_mean (map turbidity (r :: rest)))
      (Spec.arithmetic_mean (map temperature (r :: rest))).
Proof.
  unfold currentAverages, currentAveragesTraced, divide, Spec.arithmetic_mean.
  rewrite !reduce_sum_total, !length_map. reflexivity.
Qed.

Lemma currentAverages_nonempty filtered :
  filtered <> [] ->
  currentAverages filtered
  = mkAverages (Spec.arithmetic_mean (map ph filtered))
      (Spec.arithmetic_mean (map turbidity filtered))
      (Spec.arithmetic_mean (map temperature filtered)).
Proof.
  destruct filtered as [|r rest]; [congruence|].
  intros _. apply currentAverages_cons.
Qed.

Lemma filteredReadings_other rs selected :
  selected <> "all" ->
  filteredReadings rs selected = Spec.at_location selected rs.
Proof.
  intros N. unfold filteredReadings.
  apply String.eqb_neq in N. rewrite N. apply filter_at_location.
Qed.

(** C4.  With a selected location other than 'all', the displayed dataset
    is exactly the sublist of the readings whose location is the selected
    one (the same records, in the same order, and no other), and, that
    sublist having a mean, the three displayed averages are the arithmetic
    means of its pH, turbidity and temperature values, rendered with two,
    one and one decimals. *)
Theorem filter_by_location_and_averages
    (rs : list Reading) (ld : bool) (selected range : string)
    (Hsel : selected <> "all") :
  let shown := render (mkState rs ld selected range) in
  let sub := Spec.at_location selected rs in
  dataset shown = sub
  /\ sublist sub rs
  /\ (forall r, In r sub <-> In r rs /\ reading_location r = selected)
  /\ (sub <> [] ->
      currentAverages (filteredReadings rs selected)
      = mkAverages (Spec.arithmetic_mean (map ph sub))
          (Spec.arithmetic_mean (map turbidity sub))
          (Spec.arithmetic_mean (map temperature sub))
      /\ shown_ph shown = JS.toFixed 2 (Spec.arithmetic_mean (map ph sub))
      /\ shown_turbidity shown
         = JS.toFixed 1 (Spec.arithmetic_mean (map turbidity sub))
      /\ shown_temperature shown
         = JS.toFixed 1 (Spec.arithmetic_mean (map temperature sub))).
Proof.
  intros shown sub. subst shown sub. unfold render. simpl.
  rewrite (filteredReadings_other rs selected Hsel).
  split; [reflexivity|].
  split; [apply at_location_sublist|].
  split; [intros r; apply at_location_In|].
  intros Hne. rewrite (currentAverages_nonempty _ Hne). simpl. auto.
Qed.

Lemma filter_by_location_and_averages_witness :
  "Riverside Village" <> "all"
  /\ dataset (render (mkState Samples.mixed_readings false
                        "Riverside Village" "24h"))
     = Samples.three_at_riverside.
Proof.
  assert (H : "Riverside Village" <> "all") by discriminate.
  split; [exact H|].
  exact (proj1 (filter_by_location_and_averages Samples.mixed_readings false
                  "Riverside Village" "24h" H)).
Defined.

Lemma filteredReadings_all_at rs selected :
  Forall (fun r => reading_location r = selected) rs ->
  filteredReadings rs selected = rs.
Proof.
  intros H. unfold filteredReadings.
  destruct (String.eqb selected "all"); [reflexivity|].
  induction H as [|r rest Hr _ IH]; simpl; [reflexivity|].
  apply String.eqb_eq in Hr. rewrite Hr, IH. reflexivity.
Qed.

(** C6.  The displayed average pH is the arithmetic mean of the pH values
    of the filtered readings, rendered by toFixed with two decimals; for
    readings with pH values 6.0, 7.0, 8.0, all at the selected location,
    the text is 7.00. *)
Theorem displayed_average_ph
    (rs : list Reading) (ld : bool) (selected range : string)
    (Hne : filteredReadings rs selected <> []) :
  let shown := render (mkState rs ld selected range) in
  shown_ph shown
  = JS.toFixed 2 (Spec.arithmetic_mean (map ph (filteredReadings rs selected)))
  /\ (map ph rs = [6; 7; 8]%float ->
      Forall (fun r => reading_location r = selected) rs ->
      shown_ph shown = JS.Text "7.00").
Proof.
  intros shown. subst shown. unfold render. simpl.
  rewrite (currentAverages_nonempty _ Hne). simpl.
  split; [reflexivity|].
  intros Hph Hloc. rewrite (filteredReadings_all_at _ _ Hloc), Hph.
  vm_compute. reflexivity.
Qed.

Lemma displayed_average_ph_witness :
  filteredReadings Samples.three_at_riverside "Riverside Village" <> []
  /\ map ph Samples.three_at_riverside = [6; 7; 8]%float
  /\ Forall (fun r => reading_location r = "Riverside Village")
       Samples.three_at_riverside
  /\ shown_ph (render (mkState Samples.three_at_riverside false
                         "Riverside Village" "24h"))
     = JS.Text "7.00".
Proof.
  assert (Hne : filteredReadings Samples.three_at_riverside "Riverside Village"
                <> []) by (simpl; discriminate).
  assert (Hph : map ph Samples.three_at_riverside = [6; 7; 8]%float)
    by reflexivity.
  assert (Hloc : Forall (fun r => reading_location r = "Riverside Village")
                   Samples.three_at_riverside)
    by (repeat constructor).
  split; [exact Hne|]. split; [exact Hph|]. split; [exact Hloc|].
  exact (proj2 (displayed_average_ph Samples.three_at_riverside false
                  "Riverside Village" "24h" Hne) Hph Hloc).
Defined.

(** Whatever the readings, the pH card shows a numeral with exactly two
    decimals, unless the average is not a finite number below 10^21. *)
Lemma shown_ph_shape (s : State) :
  let shown := shown_ph (render s) in
  (exists sign a b,
      shown = JS.Text (sign ++ a ++ "." ++ b)
      /\ String.length b = 2%nat /\ (sign = "" \/ sign = "-"))
  \/ shown = JS.Text "NaN" \/ shown = JS.Text "Infinity"
  \/ shown = JS.Text "-Infinity"
  \/ exists x, shown = JS.ViaToString x.
Proof.
  unfold render. simpl.
  destruct (JSFacts.toFixed_shape 1
              (avg_ph (currentAverages
                         (filteredReadings (readings s) (selectedLocation s)))))
    as [H|[H|[H|[H|H]]]]; eauto 6.
Qed.

Lemma currentAveragesTraced_divisors filtered d :
  In d (snd (currentAveragesTraced filtered)) ->
  (0 < length filtered)%nat /\ d = JS.of_length (length filtered).
Proof.
  unfold currentAveragesTraced, divide.
  destruct filtered as [|r rest]; simpl; [tauto|].
  intros [H|[H|[H|[]]]]; split; auto; lia.
Qed.

(** C9.  When the filtered set is empty the three averages are 0, shown as
    0.00, 0.0 and 0.0; no division is performed then, whereas the mean
    formula on no values would give 0/0 = NaN.  Whenever a division is
    performed, the filtered set is non-empty and the divisor is its
    length. *)
Theorem empty_selection_averages
    (rs : list Reading) (ld : bool) (selected range : string) :
  let filtered := filteredReadings rs selected in
  let shown := render (mkState rs ld selected range) in
  (filtered = [] ->
     currentAverages filtered = mkAverages 0 0 0
     /\ snd (currentAveragesTraced filtered) = []
     /\ shown_ph shown = JS.Text "0.00"
     /\ shown_turbidity shown = JS.Text "0.0"
     /\ shown_temperature shown = JS.Text "0.0"
     /\ PrimFloat.is_nan (Spec.arithmetic_mean (map ph filtered)) = true)
  /\ (forall d, In d (snd (currentAveragesTraced filtered)) ->
       (0 < length filtered)%nat /\ d = JS.of_length (length filtered)).
Proof.
  intros filtered shown. subst shown. unfold render. simpl.
  fold filtered. split.
  - intros E. rewrite E. repeat split; vm_compute; reflexivity.
  - intros d. apply currentAveragesTraced_divisors.
Qed.

Lemma empty_selection_averages_witness :
  filteredReadings Samples.three_at_riverside "Valley View" = []
  /\ shown_ph (render (mkState Samples.three_at_riverside false
                         "Valley View" "24h"))
     = JS.Text "0.00".
Proof.
  assert (E : filteredReadings Samples.three_at_riverside "Valley View" = [])
    by reflexivity.
  split; [exact E|].
  exact (proj1 (proj2 (proj2 (proj1
           (empty_selection_averages Samples.three_at_riverside false
              "Valley View" "24h") E)))).
Defined.

(** C10.  Selecting 'all' is the identity: the displayed dataset is the
    fetched reading list itself. *)
Theorem filter_all_is_identity
    (rs : list Reading) (ld : bool) (range : string) :
  filteredReadings rs "all" = rs
  /\ dataset (render (mkState rs ld "all" range)) = rs.
Proof. split; reflexivity. Qed.

End ReadingsFacts.

(** ** Alerts: the summary counts *)

Module AlertsFacts.
Import Effects Api Alerts.

Lemma countBySeverity_occurrences label l :
  countBySeverity label l = Spec.occurrences label (map severity l).
Proof.
  unfold countBySeverity, Spec.occurrences.
  induction l as [|a rest IH]; simpl; [reflexivity|].
  destruct (string_dec (severity a) label) as [E|N].
  - apply String.eqb_eq in E. rewrite E. simpl. rewrite IH. reflexivity.
  - apply String.eqb_neq in N. rewrite N. exact IH.
Qed.

(** C5.  Each summary count is the number of alerts whose severity is the
    label of the card; for severities critical, warning, critical, info the
    counts are 2, 1 and 1. *)
Theorem summary_counts (l : list Alert) :
  (criticalCount l = Spec.occurrences "critical" (map severity l)
   /\ warningCount l = Spec.occurrences "warning" (map severity l)
   /\ infoCount l = Spec.occurrences "info" (map severity l))
  /\ (map severity l = ["critical"; "warning"; "critical"; "info"] ->
      criticalCount l = 2%nat /\ warningCount l = 1%nat /\ infoCount l = 1%nat).
Proof.
  unfold criticalCount, warningCount, infoCount.
  rewrite !countBySeverity_occurrences.
  split; [auto|].
  intros E. rewrite E. repeat split.
Qed.

Lemma summary_counts_witness :
  map severity Samples.four_alerts = ["critical"; "warning"; "critical"; "info"]
  /\ criticalCount Samples.four_alerts = 2%nat
  /\ warningCount Samples.four_alerts = 1%nat
  /\ infoCount Samples.four_alerts = 1%nat.
Proof.
  assert (E : map severity Samples.four_alerts
              = ["critical"; "warning"; "critical"; "info"]) by reflexivity.
  split; [exact E|].
  exact (proj2 (summary_counts Samples.four_alerts) E).
Defined.

End AlertsFacts.

(** ** Locations: status comparison *)

Module LocationsFacts.
Import Effects Api Locations.

Lemma lower_upper_ascii c : JS.lower_ascii (JS.upper_ascii c) = JS.lower_ascii c.
Proof. destruct c as [[] [] [] [] [] [] [] []]; reflexivity. Qed.

Lemma lower_lower_ascii c : JS.lower_ascii (JS.lower_ascii c) = JS.lower_ascii c.
Proof. destruct c as [[] [] [] [] [] [] [] []]; reflexivity. Qed.

Lemma toLowerCase_toUpperCase s :
  JS.toLowerCase (JS.toUpperCase s) = JS.toLowerCase s.
Proof.
  induction s as [|c r IH]; simpl; [reflexivity|].
  rewrite lower_upper_ascii, IH. reflexivity.
Qed.

Lemma toLowerCase_idempotent s :
  JS.toLowerCase (JS.toLowerCase s) = JS.toLowerCase s.
Proof.
  induction s as [|c r IH]; simpl; [reflexivity|].
  rewrite lower_lower_ascii, IH. reflexivity.
Qed.

(** The badge styling ignores letter case: two spellings of a status that
    agree up to case get the same class. *)
Lemma getStatusColor_case_insensitive s t :
  JS.toLowerCase s = JS.toLowerCase t -> getStatusColor s = getStatusColor t.
Proof. unfold getStatusColor. intros E. rewrite E. reflexivity. Qed.

Lemma getStatusColor_upper s : getStatusColor (JS.toUpperCase s) = getStatusColor s.
Proof. apply getStatusColor_case_insensitive, toLowerCase_toUpperCase. Qed.

(** On statuses already in lower case the two paths agree: the Active card
    counts exactly the rows whose badge is styled as active. *)
Lemma activeCount_on_lowercase (l : list Location) :
  Forall (fun x => JS.toLowerCase (status x) = status x) l ->
  activeCount l
  = length (List.filter
              (fun r => String.eqb (badge_class r) "bg-status-success text-white")
              (tableRows l)).
Proof.
  unfold activeCount, countByStatus.
  induction 1 as [|x rest Hx _ IH]; simpl; [reflexivity|].
  unfold getStatusColor at 1. rewrite Hx.
  destruct (String.eqb (status x) "active"); simpl; [rewrite IH; reflexivity|].
  destruct (String.eqb (status x) "warning"); simpl; [exact IH|].
  destruct (String.eqb (status x) "inactive"); simpl; exact IH.
Qed.

(** C2.  The badge styling compares the status without regard to case, the
    summary counts compare it exactly: a station whose status is spelled
    'Active' is styled as active and counted in none of the three cards,
    while the same station spelled 'active' is counted as active. *)
Theorem status_counts_are_case_sensitive :
  let capital := [Samples.station "Active"] in
  let plain := [Samples.station "active"] in
  map badge_class (tableRows capital) = map badge_class (tableRows plain)
  /\ map badge_class (tableRows capital) = ["bg-status-success text-white"]
  /\ activeCount plain = 1%nat
  /\ activeCount capital = 0%nat
  /\ warningCount capital = 0%nat
  /\ inactiveCount capital = 0%nat
  /\ totalCount capital = 1%nat.
Proof. repeat split. Qed.

End LocationsFacts.

(** ** The axios client: what a request does *)

Module ApiFacts.
Import Effects Api.

Section Runs.
Context {P D : Type}.
Implicit Types (w : World P) (net : Network D) (config : RequestConfig).

Lemma request_interceptor_run config w :
  request_interceptor config w = (Return (Spec.outgoing config (browser w)), w).
Proof.
  unfold request_interceptor, Spec.outgoing, bind, getItem, read_browser.
  destruct (localStorage (browser w) !! auth_token) as [t|]; simpl;
    [destruct (String.eqb t "")|]; reflexivity.
Qed.

Lemma dispatch_run net config w :
  dispatch net config w
  = match net config with
    | Responded r =>
        if validateStatus (status_code r)
        then (Return r, Spec.after_send config w)
        else (Throw (Axios (Spec.transport_error (net config))),
              Spec.after_send config w)
    | Unreachable =>
        (Throw (Axios (Spec.transport_error (net config))),
         Spec.after_send config w)
    end.
Proof.
  unfold dispatch, settle, bind, modify_browser, Spec.after_send.
  simpl. destruct (net config) as [r|]; simpl; [|reflexivity].
  destruct (validateStatus (status_code r)); reflexivity.
Qed.

(** A request, step by step: the configuration is completed by the request
    interceptor and handed to the network; a rejection passes through the
    response interceptor, which signs the user out on a 401 and rejects
    with the error it was given. *)
Lemma request_run net config w :
  request net config w
  = let sentc := Spec.outgoing config (browser w) in
    let w1 := Spec.after_send sentc w in
    match net sentc with
    | Responded r =>
        if validateStatus (status_code r) then (Return r, w1)
        else (Throw (Axios (Spec.transport_error (net sentc))),
              if status_code r =? 401 then Spec.signed_out w1 else w1)
    | Unreachable => (Throw (Axios (Spec.transport_error (net sentc))), w1)
    end.
Proof.
  unfold request, bind at 1. rewrite request_interceptor_run.
  unfold try_catch, bind. rewrite dispatch_run. simpl.
  destruct (net (Spec.outgoing config (browser w))) as [r|]; simpl;
    [|reflexivity].
  destruct (validateStatus (status_code r)); simpl; [reflexivity|].
  unfold response_rejected, bind. simpl.
  destruct (status_code r =? 401); reflexivity.
Qed.

End Runs.

(** Every accessor is a request of the instance at its own configuration,
    so what holds of [request] at every configuration holds of each of
    them. *)
Lemma accessors_are_requests {P : Type} :
  (forall net c, login (P:=P) net c = request net (Spec.login_config c))
  /\ (forall net, getAlerts (P:=P) net
                  = request net (Expected.get_config "/api/alerts"))
  /\ (forall net, getLocations (P:=P) net
                  = request net (Expected.get_config "/api/locations"))
  /\ (forall net, getReadings (P:=P) net
                  = request net (Expected.get_config "/api/readings"))
  /\ (forall net, getReports (P:=P) net
                  = request net (Expected.get_config "/api/reports"))
  /\ (forall net reportId,
        downloadReport (P:=P) net reportId
        = request net (mkConfig GET ("/api/reports/" ++ reportId ++ "/download")
                         default_headers None (Some "blob"))).
Proof. repeat split. Qed.

(** C3.  When the response to a request has status 401, the client removes
    the stored token and points the browser at the login view; when it has
    any other error status, storage, location and page are left as they
    were.  In both cases the caller gets a rejection whose value is the
    very error the transport produced for that response. *)
Theorem response_error_policy {P D : Type}
    (net : Network D) (config : RequestConfig) (w : World P) (r : Response D)
    (Hresp : net (Spec.outgoing config (browser w)) = Responded r)
    (Herr : validateStatus (status_code r) = false) :
  let sentc := Spec.outgoing config (browser w) in
  let res := request net config w in
  let b' := browser (snd res) in
  fst res = Throw (Axios (Spec.transport_error (Responded r)))
  /\ fst res = fst (dispatch net sentc w)
  /\ response_status (Spec.transport_error (Responded r)) = Some (status_code r)
  /\ (status_code r = 401 ->
      localStorage b' !! auth_token = None /\ location b' = "/login")
  /\ (status_code r <> 401 ->
      localStorage b' = localStorage (browser w)
      /\ location b' = location (browser w)
      /\ toasts b' = toasts (browser w)
      /\ page (snd res) = page w).
Proof.
  intros sentc res b'. subst b' res sentc.
  rewrite request_run, dispatch_run. simpl.
  rewrite Hresp, Herr. simpl.
  split; [reflexivity|]. split; [reflexivity|]. split; [reflexivity|].
  split.
  - intros E. rewrite E. simpl. split; [apply lookup_delete_eq|reflexivity].
  - intros N. apply Z.eqb_neq in N. rewrite N. simpl. auto.
Qed.

Lemma response_error_policy_witness :
  let net : Network (list Alert) := Samples.answers 401 [] in
  let config := mkConfig GET "/api/alerts" default_headers None None in
  let w := mkWorld (Samples.browser_at {[auth_token := "tok"]} "/alerts" 0.5)
             Alerts.initial in
  net (Spec.outgoing config (browser w)) = Responded (mkResponse 401 [])
  /\ validateStatus 401 = false
  /\ localStorage (browser (snd (request net config w))) !! auth_token = None
  /\ location (browser (snd (request net config w))) = "/login".
Proof.
  intros net config w.
  assert (Hresp : net (Spec.outgoing config (browser w))
                  = Responded (mkResponse 401 [])) by reflexivity.
  assert (Herr : validateStatus (status_code (mkResponse 401 (@nil Alert)))
                 = false) by reflexivity.
  split; [exact Hresp|]. split; [exact Herr|].
  exact (proj1 (proj2 (proj2 (proj2
           (response_error_policy net config w _ Hresp Herr)))) eq_refl).
Defined.

(** C8, as the client does it.  The request that reaches the network is
    the caller's with one change at most: when storage holds a non-empty
    token, the header Authorization: Bearer <token> is added; when storage
    holds no token, or holds the empty string, no Authorization header is
    attached. *)
Theorem authorization_header {P D : Type}
    (net : Network D) (w : World P)
    (m : Method) (path : string) (payload : option LoginCredentials)
    (rtype : option string) :
  let config := mkConfig m path default_headers payload rtype in
  let stored := localStorage (browser w) !! auth_token in
  exists out,
    sent (browser (snd (request net config w))) = (sent (browser w) ++ [out])%list
    /\ method out = m /\ url out = path /\ body out = payload
    /\ (forall t, stored = Some t -> t <> "" ->
        headers out !! "Authorization" = Some ("Bearer " ++ t))
    /\ (stored = None -> headers out !! "Authorization" = None)
    /\ (stored = Some "" -> headers out !! "Authorization" = None).
Proof.
  intros config stored. exists (Spec.outgoing config (browser w)).
  split.
  - rewrite request_run. simpl.
    destruct (net (Spec.outgoing config (browser w))) as [r|]; simpl;
      [|reflexivity].
    destruct (validateStatus (status_code r)); simpl; [reflexivity|].
    destruct (status_code r =? 401); reflexivity.
  - subst stored. unfold Spec.outgoing.
    destruct (localStorage (browser w) !! auth_token) as [t|]; simpl.
    + destruct (String.eqb t "") eqn:E; simpl.
      * apply String.eqb_eq in E. subst t.
        split; [reflexivity|]. split; [reflexivity|]. split; [reflexivity|].
        split; [intros t Ht Hne; congruence|].
        split; [discriminate|]. intros _. reflexivity.
      * split; [reflexivity|]. split; [reflexivity|]. split; [reflexivity|].
        split; [|split; [discriminate|]].
        -- intros t' Ht _. inversion Ht; subst t'. apply lookup_insert_eq.
        -- intros Ht. inversion Ht; subst t. discriminate E.
    + split; [reflexivity|]. split; [reflexivity|]. split; [reflexivity|].
      split; [discriminate|]. split; [reflexivity|discriminate].
Qed.

Lemma authorization_header_witness :
  let net : Network (list Alert) := Samples.down in
  let w := mkWorld (Samples.browser_at {[auth_token := "tok"]} "/alerts" 0.5)
             Alerts.initial in
  localStorage (browser w) !! auth_token = Some "tok"
  /\ "tok" <> ""
  /\ exists out,
       sent (browser (snd (getAlerts net w))) = [out]
       /\ headers out !! "Authorization" = Some "Bearer tok".
Proof.
  intros net w.
  assert (Hs : localStorage (browser w) !! auth_token = Some "tok")
    by reflexivity.
  assert (Hne : "tok" <> "") by discriminate.
  split; [exact Hs|]. split; [exact Hne|].
  destruct (authorization_header net w GET "/api/alerts" None None)
    as (out & Hsent & _ & _ & _ & Hsome & _).
  exists out. split; [exact Hsent|]. exact (Hsome "tok" Hs Hne).
Defined.

(** C8, as claimed, fails when the stored token is the empty string: a
    token entry is present in storage and the request goes out without an
    Authorization header. *)
Lemma empty_token_sends_no_header :
  let net : Network (list Alert) := Samples.down in
  let w := mkWorld (Samples.browser_at {[auth_token := ""]} "/alerts" 0.5)
             Alerts.initial in
  localStorage (browser w) !! auth_token = Some ""
  /\ map (fun c => headers c !! "Authorization")
       (sent (browser (snd (getAlerts net w)))) = [None].
Proof. split; reflexivity. Qed.

End ApiFacts.

(** ** Login: what a submission does *)

Module LoginFacts.
Import Effects Api Login.

(** C7, as the code does it.  When the login request succeeds with a token
    in the response, the token is stored under the auth token key, the
    success notification is raised and the app navigates to /alerts.  When
    the request is rejected, the failure notification is raised, the form
    keeps its fields, the router is not navigated and no token is written:
    the stored token and the location are unchanged, unless the rejection
    is a 401 response, for which the client removes any stored token and
    points the browser at /login. *)
Theorem login_submission (net : Network LoginData) (w : World State) :
  let out := net (Spec.outgoing (Spec.login_config (credentials (page w)))
                    (browser w)) in
  let res := handleSubmit net w in
  let b := browser w in
  let b' := browser (snd res) in
  (forall r t,
      out = Responded r -> validateStatus (status_code r) = true ->
      data r = WithToken t ->
      fst res = Return tt
      /\ localStorage b' = <[auth_token := t]> (localStorage b)
      /\ localStorage b' !! auth_token = Some t
      /\ location b' = "/alerts"
      /\ toasts b' = (toasts b ++ [Spec.success_toast])%list
      /\ page (snd res) = mkState false (credentials (page w)))
  /\ (Spec.rejected out ->
      fst res = Return tt
      /\ toasts b' = (toasts b ++ [Spec.failure_toast])%list
      /\ page (snd res) = mkState false (credentials (page w))
      /\ (forall v, localStorage b' !! auth_token = Some v ->
                    localStorage b !! auth_token = Some v)
      /\ (location b = "/login" -> location b' = "/login")
      /\ (response_status (Spec.transport_error out) <> Some 401 ->
          localStorage b' = localStorage b /\ location b' = location b)
      /\ (response_status (Spec.transport_error out) = Some 401 ->
          localStorage b' = delete auth_token (localStorage b)
          /\ location b' = "/login")).
Proof.
  intros out res b b'. subst b' res b.
  unfold handleSubmit.
  cbv [finally try_catch bind setIsLoading set_page read_page login api_post].
  rewrite ApiFacts.request_run. cbv zeta. cbn [browser page credentials].
  change (mkConfig POST "/api/login" default_headers
            (Some (credentials (page w))) None)
    with (Spec.login_config (credentials (page w))).
  fold out. split.
  - intros r t Hout Hok Hdata. rewrite Hout, Hok. simpl.
    rewrite Hdata. simpl.
    repeat split. apply lookup_insert_eq.
  - intros Hrej. destruct out as [r|] eqn:Hout; simpl in *.
    + rewrite Hrej. simpl.
      destruct (status_code r =? 401) eqn:E; simpl.
      * apply Z.eqb_eq in E.
        split; [reflexivity|]. split; [reflexivity|]. split; [reflexivity|].
        split; [intros v; rewrite lookup_delete_eq; discriminate|].
        split; [reflexivity|].
        split; [intros N; rewrite E in N; congruence|].
        intros _. split; reflexivity.
      * apply Z.eqb_neq in E.
        split; [reflexivity|]. split; [reflexivity|]. split; [reflexivity|].
        split; [auto|]. split; [auto|]. split; [auto|].
        intros H. inversion H. congruence.
    + split; [reflexivity|]. split; [reflexivity|]. split; [reflexivity|].
      split; [auto|]. split; [auto|]. split; [auto|]. discriminate.
Qed.

Lemma login_submission_witness :
  let ok : Network LoginData := Samples.answers 200 (WithToken "jwt-abc") in
  let ko : Network LoginData := Samples.answers 401 NoData in
  let w := mkWorld (Samples.browser_at ∅ "/login" 0.5)
             (mkState false (mkCredentials "admin" "password")) in
  (validateStatus 200 = true
   /\ localStorage (browser (snd (handleSubmit ok w))) !! auth_token
      = Some "jwt-abc"
   /\ location (browser (snd (handleSubmit ok w))) = "/alerts")
  /\ (Spec.rejected (ko (Spec.outgoing (Spec.login_config
                                          (credentials (page w))) (browser w)))
      /\ toasts (browser (snd (handleSubmit ko w))) = [Spec.failure_toast]
      /\ location (browser (snd (handleSubmit ko w))) = "/login").
Proof.
  intros ok ko w. split.
  - assert (Hok : validateStatus 200 = true) by reflexivity.
    split; [exact Hok|].
    destruct (proj1 (login_submission ok w) _ "jwt-abc" eq_refl Hok eq_refl)
      as (_ & _ & Hstored & Hloc & _).
    split; [exact Hstored | exact Hloc].
  - assert (Hrej : Spec.rejected
                     (ko (Spec.outgoing (Spec.login_config
                                           (credentials (page w))) (browser w))))
      by reflexivity.
    split; [exact Hrej|].
    destruct (proj2 (login_submission ko w) Hrej)
      as (_ & Htoast & _ & _ & Hstay & _).
    split; [exact Htoast | exact (Hstay eq_refl)].
Defined.

(** C7, as claimed, fails where it says that a failed login leaves the
    stored token unchanged: with a token left in storage from an earlier
    session, a login rejected with status 401 goes through the response
    interceptor, which removes it. *)
Lemma failed_login_clears_stale_token :
  let ko : Network LoginData := Samples.answers 401 NoData in
  let w := mkWorld (Samples.browser_at {[auth_token := "stale"]} "/login" 0.5)
             (mkState false (mkCredentials "admin" "wrong")) in
  Spec.rejected (ko (Spec.outgoing (Spec.login_config (credentials (page w)))
                       (browser w)))
  /\ localStorage (browser w) !! auth_token = Some "stale"
  /\ localStorage (browser (snd (handleSubmit ko w))) !! auth_token = None
  /\ toasts (browser (snd (handleSubmit ko w))) = [Spec.failure_toast].
Proof. repeat split. Qed.

End LoginFacts.

(** ** The data pages when the fetch is rejected *)

Module FallbackFacts.
Import Effects Api.

(** The rest of a fetch once its request has been rejected: the outcome of
    the request decides nothing but storage and location. *)
Ltac rejected_request H :=
  rewrite ApiFacts.request_run; cbv zeta; cbn [browser page];
  match type of H with
  | Spec.rejected ?o =>
      destruct o as [?r|]; cbn [Spec.rejected] in H; cbv beta iota;
      [rewrite H; destruct (status_code _ =? 401)|]
  end.

Lemma mockLoop_run (w : World Readings.State) (now : Z) :
  Readings.mockLoop 25 0 now [] w
  = (Return (map (fun i =>
               Readings.mockReading now i
                 (random (browser w) (3 * i + random_draws (browser w)))
                 (random (browser w) (3 * i + 1 + random_draws (browser w)))
                 (random (browser w) (3 * i + 2 + random_draws (browser w))))
               (seq 0 24)),
     mkWorld (mkBrowser (localStorage (browser w)) (location (browser w))
                (toasts (browser w)) (sent (browser w))
                (clock (browser w)) (clock_reads (browser w))
                (random (browser w)) (72 + random_draws (browser w)))
             (page w)).
Proof. reflexivity. Qed.

Lemma fetchReadings_rejected (net : Network (list Reading))
    (w : World Readings.State) :
  Spec.rejected (net (Spec.outgoing (Expected.get_config "/api/readings")
                        (browser w))) ->
  page (snd (Readings.fetchReadings net w))
  = Readings.mkState (Expected.readings_from (browser w)) false
      (Readings.selectedLocation (page w)) (Readings.timeRange (page w)).
Proof.
  intros H. unfold Readings.fetchReadings.
  cbv [finally try_catch bind Readings.setLoading Readings.setReadings
       set_page getReadings api_get].
  change (mkConfig GET "/api/readings" default_headers None None)
    with (Expected.get_config "/api/readings") in *.
  cbn [browser page] in *.
  rejected_request H; cbv beta iota.
  all: unfold toast, modify_browser, date_now; cbn [browser page clock clock_reads fst snd].
  all: rewrite mockLoop_run; cbn [page snd].
  all: reflexivity.
Qed.
Lemma fetchAlerts_rejected (net : Network (list Alert))
    (w : World Alerts.State) :
  Spec.rejected (net (Spec.outgoing (Expected.get_config "/api/alerts")
                        (browser w))) ->
  page (snd (Alerts.fetchAlerts net w))
  = Alerts.mkState (Expected.alerts_from (browser w)) false.
Proof.
  intros H. unfold Alerts.fetchAlerts.
  cbv [finally try_catch bind Alerts.setLoading Alerts.setAlerts
       set_page getAlerts api_get].
  change (mkConfig GET "/api/alerts" default_headers None None)
    with (Expected.get_config "/api/alerts") in *.
  rejected_request H; cbv beta iota.
  all: reflexivity.
Qed.

Lemma fetchLocations_rejected (net : Network (list Location))
    (w : World Locations.State) :
  Spec.rejected (net (Spec.outgoing (Expected.get_config "/api/locations")
                        (browser w))) ->
  page (snd (Locations.fetchLocations net w))
  = Locations.mkState Locations.mockLocations false
      (Locations.viewMode (page w)).
Proof.
  intros H. unfold Locations.fetchLocations.
  cbv [finally try_catch bind Locations.setLoading Locations.setLocations
       set_page getLocations api_get].
  change (mkConfig GET "/api/locations" default_headers None None)
    with (Expected.get_config "/api/locations") in *.
  rejected_request H; cbv beta iota.
  all: reflexivity.
Qed.

Lemma readings_from_ids b :
  map reading_id (Expected.readings_from b) = Expected.reading_ids.
Proof. reflexivity. Qed.

Lemma readings_from_locations b :
  map reading_location (Expected.readings_from b) = Expected.reading_locations.
Proof. reflexivity. Qed.

(** C1, as the code does it.  When its fetch is rejected, each data page
    puts its fallback dataset in its state, and that dataset is not empty:
    three alerts, three locations, twenty-four readings.  The locations
    are the same on every run.  The alerts are the same on every run but
    for their timestamps, which are read from the clock.  The readings
    have the same ids and location names on every run; their timestamps
    follow the clock and their pH, turbidity and temperature are computed
    from the values Math.random returns.  The Alerts table lists the
    fallback alerts, and the Readings page shows all fallback readings
    when the selection is 'all'. *)
Theorem fallback_on_failure
    (netA : Network (list Alert)) (wA : World Alerts.State)
    (netL : Network (list Location)) (wL : World Locations.State)
    (netR : Network (list Reading)) (wR : World Readings.State)
    (HA : Spec.rejected (netA (Spec.outgoing
             (Expected.get_config "/api/alerts") (browser wA))))
    (HL : Spec.rejected (netL (Spec.outgoing
             (Expected.get_config "/api/locations") (browser wL))))
    (HR : Spec.rejected (netR (Spec.outgoing
             (Expected.get_config "/api/readings") (browser wR)))) :
  let a' := page (snd (Alerts.fetchAlerts netA wA)) in
  let l' := page (snd (Locations.fetchLocations netL wL)) in
  let r' := page (snd (Readings.fetchReadings netR wR)) in
  (Alerts.alerts a' = Expected.alerts_from (browser wA)
   /\ Alerts.render a' = Alerts.Rows (Expected.alerts_from (browser wA))
   /\ length (Alerts.alerts a') = 3%nat
   /\ map Expected.constant_fields (Alerts.alerts a')
      = Expected.alert_constants)
  /\ (Locations.locations l' = Locations.mockLocations
      /\ length (Locations.locations l') = 3%nat
      /\ map Locations.row_location
           (Locations.tableRows (Locations.locations l'))
         = Locations.mockLocations)
  /\ (Readings.readings r' = Expected.readings_from (browser wR)
      /\ length (Readings.readings r') = 24%nat
      /\ map reading_id (Readings.readings r') = Expected.reading_ids
      /\ map reading_location (Readings.readings r')
         = Expected.reading_locations
      /\ (Readings.selectedLocation (page wR) = "all" ->
          Readings.dataset (Readings.render r')
          = Expected.readings_from (browser wR))).
Proof.
  intros a' l' r'. subst a' l' r'.
  rewrite (fetchAlerts_rejected _ _ HA), (fetchLocations_rejected _ _ HL),
    (fetchReadings_rejected _ _ HR).
  split; [repeat split|]. split; [repeat split|].
  cbn [Readings.readings].
  split; [reflexivity|]. split; [reflexivity|].
  split; [apply readings_from_ids|]. split; [apply readings_from_locations|].
  intros Hall. unfold Readings.render. cbn [Readings.readings
    Readings.selectedLocation Readings.dataset].
  rewrite Hall. reflexivity.
Qed.

Lemma fallback_on_failure_witness :
  let netA : Network (list Alert) := Samples.answers 500 [] in
  let netL : Network (list Location) := Samples.down in
  let netR : Network (list Reading) := Samples.answers 401 [] in
  let wA := mkWorld (Samples.browser_at ∅ "/alerts" 0.5) Alerts.initial in
  let wL := mkWorld (Samples.browser_at ∅ "/locations" 0.5)
              Locations.initial in
  let wR := mkWorld (Samples.browser_at {[auth_token := "tok"]} "/readings"
                       0.5) Readings.initial in
  (Spec.rejected (netA (Spec.outgoing (Expected.get_config "/api/alerts")
                          (browser wA)))
   /\ Spec.rejected (netL (Spec.outgoing
                            (Expected.get_config "/api/locations")
                            (browser wL)))
   /\ Spec.rejected (netR (Spec.outgoing
                            (Expected.get_config "/api/readings")
                            (browser wR))))
  /\ length (Alerts.alerts (page (snd (Alerts.fetchAlerts netA wA)))) = 3%nat
  /\ Locations.locations (page (snd (Locations.fetchLocations netL wL)))
     = Locations.mockLocations
  /\ length (Readings.readings (page (snd (Readings.fetchReadings netR wR))))
     = 24%nat.
Proof.
  intros netA netL netR wA wL wR.
  assert (HA : Spec.rejected (netA (Spec.outgoing
                  (Expected.get_config "/api/alerts") (browser wA))))
    by reflexivity.
  assert (HL : Spec.rejected (netL (Spec.outgoing
                  (Expected.get_config "/api/locations") (browser wL))))
    by exact I.
  assert (HR : Spec.rejected (netR (Spec.outgoing
                  (Expected.get_config "/api/readings") (browser wR))))
    by reflexivity.
  split; [auto|].
  destruct (fallback_on_failure netA wA netL wL netR wR HA HL HR)
    as ((_ & _ & HlenA & _) & (HlocL & _ & _) & (_ & HlenR & _)).
  split; [exact HlenA|]. split; [exact HlocL | exact HlenR].
Defined.

(** C1, as claimed, fails where it says that the fallback is one fixed
    dataset on every failing run.  Two failing runs of the Readings page
    whose Math.random returns 0.25 in one and 0.75 in the other store
    readings of pH 7 and of pH 8; two failing runs of the Alerts page a day
    apart store alerts with different timestamps. *)
Lemma fallback_varies_between_runs :
  let w1 := mkWorld (Samples.browser_at ∅ "/readings" 0.25)
              Readings.initial in
  let w2 := mkWorld (Samples.browser_at ∅ "/readings" 0.75)
              Readings.initial in
  let fallback w :=
    Readings.readings (page (snd (Readings.fetchReadings Samples.down w))) in
  let a1 := mkWorld (Samples.browser_at ∅ "/alerts" 0.5) Alerts.initial in
  let a2 := mkWorld (Samples.next_day (Samples.browser_at ∅ "/alerts" 0.5))
              Alerts.initial in
  let stamps w :=
    map alert_timestamp
      (Alerts.alerts (page (snd (Alerts.fetchAlerts Samples.down w)))) in
  (map ph (fallback w1) = repeat 7%float 24
   /\ map ph (fallback w2) = repeat 8%float 24
   /\ fallback w1 <> fallback w2)
  /\ (stamps a1 = ["2023-11-14T22:13:20.000Z"; "2023-11-14T21:13:20.000Z";
                   "2023-11-14T20:13:20.000Z"]
      /\ stamps a2 = ["2023-11-15T22:13:20.000Z"; "2023-11-15T21:13:20.000Z";
                      "2023-11-15T20:13:20.000Z"]).
Proof.
  intros w1 w2 fallback a1 a2 stamps.
  assert (E1 : map ph (fallback w1) = repeat 7%float 24)
    by (vm_compute; reflexivity).
  assert (E2 : map ph (fallback w2) = repeat 8%float 24)
    by (vm_compute; reflexivity).
  split.
  - split; [exact E1|]. split; [exact E2|].
    intros H. rewrite H, E2 in E1.
    apply (f_equal (fun l => match l with
                             | x :: _ => PrimFloat.eqb x 8
                             | [] => false
                             end)) in E1.
    vm_compute in E1. discriminate E1.
  - split; vm_compute; reflexivity.
Qed.

End FallbackFacts.

(** ** The axios client: more of what a request does *)

Module ClientFacts.
Import Effects Api.

(** X1.  The request interceptor changes nothing but the Authorization
    header: it leaves the browser as it was and returns the caller's
    configuration with the same method, url, body, response type and every
    other header; the Authorization header is Bearer <token> when a
    non-empty token is stored, replacing one the caller supplied, and is
    the caller's own (if any) otherwise. *)
Theorem interceptor_touches_authorization_only {P : Type}
    (config : RequestConfig) (w : World P) :
  exists out,
    request_interceptor config w = (Return out, w)
    /\ method out = method config /\ url out = url config
    /\ body out = body config /\ responseType out = responseType config
    /\ (forall k, k <> "Authorization" ->
                  headers out !! k = headers config !! k)
    /\ headers out !! "Authorization"
       = (if JS.truthy (localStorage (browser w) !! auth_token)
          then Some ("Bearer "
                     ++ JS.interpolate (localStorage (browser w) !! auth_token))
          else headers config !! "Authorization").
Proof.
  exists (Spec.outgoing config (browser w)).
  split; [apply ApiFacts.request_interceptor_run|].
  unfold Spec.outgoing.
  destruct (localStorage (browser w) !! auth_token) as [t|]; simpl;
    [destruct (String.eqb t ""); simpl|].
  - repeat split.
  - repeat (split; [reflexivity|]).
    split; [intros k Hk; apply lookup_insert_ne; congruence|].
    apply lookup_insert_eq.
  - repeat split.
Qed.

(** X2.  A request the server accepts is transparent: the caller gets the
    server's response itself, storage, location, notifications and page
    state are untouched, and exactly one request has gone out. *)
Theorem accepted_request_is_transparent {P D : Type}
    (net : Network D) (config : RequestConfig) (w : World P) (r : Response D)
    (Hok : Spec.accepted (net (Spec.outgoing config (browser w))) r) :
  let res := request net config w in
  let b' := browser (snd res) in
  fst res = Return r
  /\ localStorage b' = localStorage (browser w)
  /\ location b' = location (browser w)
  /\ toasts b' = toasts (browser w)
  /\ page (snd res) = page w
  /\ sent b' = (sent (browser w) ++ [Spec.outgoing config (browser w)])%list.
Proof.
  destruct Hok as [Hout Hvalid]. intros res b'. subst b' res.
  rewrite ApiFacts.request_run. cbv zeta. rewrite Hout, Hvalid.
  repeat split.
Qed.

Lemma accepted_request_is_transparent_witness :
  let net : Network (list Alert) := Samples.answers 200 Samples.four_alerts in
  let config := Expected.get_config "/api/alerts" in
  let w := mkWorld (Samples.browser_at {[auth_token := "tok"]} "/alerts" 0.5)
             Alerts.initial in
  Spec.accepted (net (Spec.outgoing config (browser w)))
    (mkResponse 200 Samples.four_alerts)
  /\ fst (request net config w) = Return (mkResponse 200 Samples.four_alerts).
Proof.
  intros net config w.
  assert (H : Spec.accepted (net (Spec.outgoing config (browser w)))
                (mkResponse 200 Samples.four_alerts))
    by (split; reflexivity).
  split; [exact H|].
  exact (proj1 (accepted_request_is_transparent net config w _ H)).
Defined.

(** X3.  When the server cannot be reached, the caller gets a rejection
    with an error that has no response, and the user stays signed in where
    they are: stored token, location, notifications and page state are
    untouched (only a 401 signs out). *)
Theorem unreachable_server_keeps_session {P D : Type}
    (net : Network D) (config : RequestConfig) (w : World P)
    (Hdown : net (Spec.outgoing config (browser w)) = Unreachable) :
  let res := request net config w in
  let b' := browser (snd res) in
  fst res = Throw (Axios (mkAxiosError "Network Error" None))
  /\ status_of (Axios (mkAxiosError "Network Error" None)) = None
  /\ localStorage b' = localStorage (browser w)
  /\ location b' = location (browser w)
  /\ toasts b' = toasts (browser w)
  /\ page (snd res) = page w.
Proof.
  intros res b'. subst b' res.
  rewrite ApiFacts.request_run. cbv zeta. rewrite Hdown.
  repeat split.
Qed.

Lemma unreachable_server_keeps_session_witness :
  let net : Network (list Alert) := Samples.down in
  let config := Expected.get_config "/api/alerts" in
  let w := mkWorld (Samples.browser_at {[auth_token := "tok"]} "/alerts" 0.5)
             Alerts.initial in
  net (Spec.outgoing config (browser w)) = Unreachable
  /\ localStorage (browser (snd (request net config w))) !! auth_token
     = Some "tok".
Proof.
  intros net config w.
  assert (H : net (Spec.outgoing config (browser w)) = Unreachable)
    by reflexivity.
  split; [exact H|].
  destruct (unreachable_server_keeps_session net config w H)
    as (_ & _ & Hst & _).
  rewrite Hst. reflexivity.
Defined.

Lemma request_sent {P D : Type}
    (net : Network D) (config : RequestConfig) (w : World P) :
  sent (browser (snd (request net config w)))
  = (sent (browser w) ++ [Spec.outgoing config (browser w)])%list.
Proof.
  rewrite ApiFacts.request_run. cbv zeta.
  destruct (net (Spec.outgoing config (browser w))) as [r|]; [|reflexivity].
  destruct (validateStatus (status_code r)); [reflexivity|].
  destruct (status_code r =? 401); reflexivity.
Qed.

Lemma outgoing_keeps_request (config : RequestConfig) (b : Browser) :
  method (Spec.outgoing config b) = method config
  /\ url (Spec.outgoing config b) = url config
  /\ body (Spec.outgoing config b) = body config
  /\ responseType (Spec.outgoing config b) = responseType config.
Proof.
  unfold Spec.outgoing.
  destruct (localStorage b !! auth_token) as [t|]; [|auto].
  destruct (String.eqb t ""); auto.
Qed.

(** X4.  Every call of the instance hands exactly one request to the
    network, whatever the outcome: nothing is retried and nothing is held
    back, the requests sent before stay in the log, and the request that
    goes out has the method, the address and the body the caller gave. *)
Theorem one_request_per_call {P D : Type}
    (net : Network D) (config : RequestConfig) (w : World P) :
  exists c,
    sent (browser (snd (request net config w)))
    = (sent (browser w) ++ [c])%list
    /\ method c = method config /\ url c = url config
    /\ body c = body config /\ responseType c = responseType config.
Proof.
  exists (Spec.outgoing config (browser w)).
  split; [apply request_sent | apply outgoing_keeps_request].
Qed.

(** X5.  Signing out through [authAPI.logout] removes the token and
    nothing else: every other key of the storage keeps its value, and the
    location, the notifications and the page are untouched.  It resolves
    whether or not a token was stored, and a second logout changes
    nothing. *)
Theorem logout_removes_only_the_token {P : Type} (w : World P) :
  let res := logout w in
  let b' := browser (snd res) in
  fst res = Return tt
  /\ localStorage b' !! auth_token = None
  /\ (forall k, k <> auth_token ->
                localStorage b' !! k = localStorage (browser w) !! k)
  /\ location b' = location (browser w)
  /\ toasts b' = toasts (browser w)
  /\ sent b' = sent (browser w)
  /\ page (snd res) = page w
  /\ logout (snd res) = (Return tt, snd res).
Proof.
  intros res b'. subst b' res.
  unfold logout, removeItem, modify_browser, with_storage. simpl.
  split; [reflexivity|]. split; [apply lookup_delete_eq|].
  split; [intros k Hk; apply lookup_delete_ne; congruence|].
  repeat (split; [reflexivity|]).
  rewrite delete_delete_eq. reflexivity.
Qed.

Lemma append_cancel_prefix (p a b : string) : p ++ a = p ++ b -> a = b.
Proof.
  induction p as [|c r IH]; simpl; intros E; [exact E|].
  injection E as E. exact (IH E).
Qed.

Lemma append_cancel_suffix (a b t : string) :
  a ++ t = b ++ t -> String.length a = String.length b -> a = b.
Proof.
  revert b. induction a as [|c r IH]; intros [|c' r'] E L; simpl in *;
    try discriminate; [reflexivity|].
  injection E as Ec Er. f_equal; [exact Ec|]. apply IH; [exact Er|lia].
Qed.

(** X6.  The download address of a report determines the report: two
    different report ids never get the same url, and the request is always
    a GET for a blob. *)
Theorem download_urls_are_distinct {P : Type}
    (net : Network string) (w : World P) (id1 id2 : string) :
  exists c1 c2,
    sent (browser (snd (downloadReport net id1 w)))
    = (sent (browser w) ++ [c1])%list
    /\ sent (browser (snd (downloadReport net id2 w)))
       = (sent (browser w) ++ [c2])%list
    /\ method c1 = GET /\ responseType c1 = Some "blob"
    /\ url c1 = "/api/reports/" ++ id1 ++ "/download"
    /\ (url c1 = url c2 -> id1 = id2).
Proof.
  unfold downloadReport, api_get.
  eexists _, _. rewrite !request_sent.
  split; [reflexivity|]. split; [reflexivity|].
  pose proof (outgoing_keeps_request
                (mkConfig GET ("/api/reports/" ++ id1 ++ "/download")
                   default_headers None (Some "blob")) (browser w))
    as (M1 & U1 & _ & R1).
  pose proof (outgoing_keeps_request
                (mkConfig GET ("/api/reports/" ++ id2 ++ "/download")
                   default_headers None (Some "blob")) (browser w))
    as (_ & U2 & _).
  rewrite U1, U2, M1, R1. simpl.
  repeat (split; [reflexivity|]).
  intros E.
  assert (L : String.length id1 = String.length id2).
  { apply (f_equal String.length) in E.
    rewrite !JSFacts.length_append in E. simpl in E. lia. }
  apply append_cancel_prefix in E.
  apply (append_cancel_suffix _ _ _ E L).
Qed.

End ClientFacts.

(** ** The session: login, logout and the requests that follow *)

Module SessionFacts.
Import Effects Api.

(** A submission of the login form, outcome by outcome. *)
Lemma handleSubmit_run (net : Network LoginData) (w : World Login.State) :
  Login.handleSubmit net w
  = let creds := Login.credentials (page w) in
    let sentc := Spec.outgoing (Spec.login_config creds) (browser w) in
    let b1 := with_sent sentc (browser w) in
    let finish (b : Browser) : Result unit * World Login.State :=
      (Return tt, mkWorld b (Login.mkState false creds)) in
    let store (v : string) :=
      finish (with_location "/alerts"
                (with_toast Spec.success_toast
                   (with_storage (insert auth_token v) b1))) in
    match net sentc with
    | Responded r =>
        if validateStatus (status_code r) then
          match data r with
          | NoData => finish (with_toast Spec.failure_toast b1)
          | WithToken t => store t
          | WithoutToken => store "undefined"
          end
        else if status_code r =? 401 then
          finish (with_toast Spec.failure_toast
                    (with_location "/login"
                       (with_storage (delete auth_token) b1)))
        else finish (with_toast Spec.failure_toast b1)
    | Unreachable => finish (with_toast Spec.failure_toast b1)
    end.
Proof.
  unfold Login.handleSubmit.
  cbv [finally try_catch bind Login.setIsLoading set_page read_page login
       api_post].
  rewrite ApiFacts.request_run. cbv zeta. cbn [browser page Login.credentials].
  change (mkConfig POST "/api/login" default_headers
            (Some (Login.credentials (page w))) None)
    with (Spec.login_config (Login.credentials (page w))).
  destruct (net (Spec.outgoing (Spec.login_config (Login.credentials (page w)))
                   (browser w))) as [r|]; [|reflexivity].
  destruct (validateStatus (status_code r)).
  - destruct (data r); reflexivity.
  - destruct (status_code r =? 401); reflexivity.
Qed.

Lemma handleSubmit_request (net : Network LoginData) (w : World Login.State) :
  exists c,
    sent (browser (snd (Login.handleSubmit net w)))
    = (sent (browser w) ++ [c])%list
    /\ method c = POST /\ url c = "/api/login"
    /\ body c = Some (Login.credentials (page w)).
Proof.
  exists (Spec.outgoing (Spec.login_config (Login.credentials (page w)))
            (browser w)).
  split.
  - rewrite handleSubmit_run. cbv zeta.
    destruct (net _) as [r|]; [|reflexivity].
    destruct (validateStatus (status_code r)).
    + destruct (data r); reflexivity.
    + destruct (status_code r =? 401); reflexivity.
  - destruct (ClientFacts.outgoing_keeps_request
                (Spec.login_config (Login.credentials (page w))) (browser w))
      as (Hm & Hu & Hb & _).
    rewrite Hm, Hu, Hb. repeat split.
Qed.

(** X7.  A submission of the login form always settles: it never rejects,
    whatever the network does; it sends exactly one request, a POST of the
    typed credentials to /api/login; it raises exactly one notification,
    the success or the failure one; and it leaves the form idle with the
    typed credentials still in its fields. *)
Theorem submission_always_settles
    (net : Network LoginData) (w : World Login.State) :
  let res := Login.handleSubmit net w in
  let b' := browser (snd res) in
  fst res = Return tt
  /\ page (snd res) = Login.mkState false (Login.credentials (page w))
  /\ (exists c, sent b' = (sent (browser w) ++ [c])%list
                /\ method c = POST /\ url c = "/api/login"
                /\ body c = Some (Login.credentials (page w)))
  /\ (toasts b' = (toasts (browser w) ++ [Spec.success_toast])%list
      \/ toasts b' = (toasts (browser w) ++ [Spec.failure_toast])%list).
Proof.
  intros res b'. subst b' res.
  pose proof (handleSubmit_request net w) as C. revert C.
  rewrite handleSubmit_run. cbv zeta.
  destruct (net _) as [r|]; [|simpl; auto].
  destruct (validateStatus (status_code r)).
  - destruct (data r); simpl; auto.
  - destruct (status_code r =? 401); simpl; auto.
Qed.

(** X8.  A login answered with success whose body is null is treated as a
    failed login: the destructuring of the token throws inside the try
    block, so the failure notification is raised, nothing is stored, and
    the user is not navigated. *)
Theorem success_with_null_body_is_a_failure
    (net : Network LoginData) (w : World Login.State) (r : Response LoginData)
    (Hok : Spec.accepted
             (net (Spec.outgoing (Spec.login_config (Login.credentials (page w)))
                     (browser w))) r)
    (Hbody : data r = NoData) :
  let res := Login.handleSubmit net w in
  let b' := browser (snd res) in
  fst res = Return tt
  /\ toasts b' = (toasts (browser w) ++ [Spec.failure_toast])%list
  /\ localStorage b' = localStorage (browser w)
  /\ location b' = location (browser w).
Proof.
  destruct Hok as [Hout Hvalid]. intros res b'. subst b' res.
  rewrite handleSubmit_run. cbv zeta. rewrite Hout, Hvalid, Hbody.
  repeat split.
Qed.

Lemma success_with_null_body_is_a_failure_witness :
  let net : Network LoginData := Samples.answers 200 NoData in
  let w := mkWorld (Samples.browser_at ∅ "/login" 0.5)
             (Login.mkState false (mkCredentials "admin" "password")) in
  Spec.accepted
    (net (Spec.outgoing (Spec.login_config (Login.credentials (page w)))
            (browser w))) (mkResponse 200 NoData)
  /\ toasts (browser (snd (Login.handleSubmit net w))) = [Spec.failure_toast]
  /\ localStorage (browser (snd (Login.handleSubmit net w))) = ∅.
Proof.
  intros net w.
  assert (Hok : Spec.accepted
                  (net (Spec.outgoing
                          (Spec.login_config (Login.credentials (page w)))
                          (browser w))) (mkResponse 200 NoData))
    by (split; reflexivity).
  split; [exact Hok|].
  destruct (success_with_null_body_is_a_failure net w _ Hok eq_refl)
    as (_ & Ht & Hs & _).
  split; [exact Ht | exact Hs].
Defined.

(** X9.  A login answered with success by a body that has no token stores
    the text "undefined" as the token, raises the success notification and
    navigates to /alerts; the requests that follow carry the header
    Authorization: Bearer undefined. *)
Theorem success_without_token_stores_undefined {D : Type}
    (net : Network LoginData) (w : World Login.State) (r : Response LoginData)
    (next : Network D) (m : Method) (path : string)
    (payload : option LoginCredentials) (rtype : option string)
    (Hok : Spec.accepted
             (net (Spec.outgoing (Spec.login_config (Login.credentials (page w)))
                     (browser w))) r)
    (Hbody : data r = WithoutToken) :
  let res := Login.handleSubmit net w in
  let b' := browser (snd res) in
  let config := mkConfig m path default_headers payload rtype in
  fst res = Return tt
  /\ localStorage b' = <[auth_token := "undefined"]> (localStorage (browser w))
  /\ location b' = "/alerts"
  /\ toasts b' = (toasts (browser w) ++ [Spec.success_toast])%list
  /\ exists c,
       sent (browser (snd (request next config (snd res))))
       = (sent b' ++ [c])%list
       /\ headers c !! "Authorization" = Some "Bearer undefined".
Proof.
  destruct Hok as [Hout Hvalid]. intros res b' config. subst b' res.
  rewrite handleSubmit_run. cbv zeta. rewrite Hout, Hvalid, Hbody.
  cbn [fst snd browser localStorage location toasts with_location with_toast
       with_storage].
  repeat (split; [reflexivity|]).
  eexists. rewrite ClientFacts.request_sent.
  split; [reflexivity|].
  set (c0 := Spec.outgoing (Spec.login_config _) (browser w)).
  unfold Spec.outgoing, with_location, with_toast, with_storage.
  cbn [snd browser localStorage].
  rewrite lookup_insert_eq. simpl. apply lookup_insert_eq.
Qed.

Lemma success_without_token_stores_undefined_witness :
  let net : Network LoginData := Samples.answers 200 WithoutToken in
  let w := mkWorld (Samples.browser_at ∅ "/login" 0.5)
             (Login.mkState false (mkCredentials "admin" "password")) in
  Spec.accepted
    (net (Spec.outgoing (Spec.login_config (Login.credentials (page w)))
            (browser w))) (mkResponse 200 WithoutToken)
  /\ localStorage (browser (snd (Login.handleSubmit net w))) !! auth_token
     = Some "undefined".
Proof.
  intros net w.
  assert (Hok : Spec.accepted
                  (net (Spec.outgoing
                          (Spec.login_config (Login.credentials (page w)))
                          (browser w))) (mkResponse 200 WithoutToken))
    by (split; reflexivity).
  split; [exact Hok|].
  destruct (success_without_token_stores_undefined net w _
              (Samples.down (D:=list Alert)) GET "/api/alerts" None None
              Hok eq_refl) as (_ & Hs & _).
  rewrite Hs. reflexivity.
Defined.

(** X10.  Login and the request interceptor round-trip the token: after a
    login that returned a non-empty token, whatever was stored before, the
    next request of the instance carries Authorization: Bearer <token>. *)
Theorem login_then_request_is_authorized {D : Type}
    (net : Network LoginData) (w : World Login.State) (r : Response LoginData)
    (t : string) (next : Network D) (m : Method) (path : string)
    (payload : option LoginCredentials) (rtype : option string)
    (Hok : Spec.accepted
             (net (Spec.outgoing (Spec.login_config (Login.credentials (page w)))
                     (browser w))) r)
    (Hbody : data r = WithToken t)
    (Hne : t <> "") :
  let config := mkConfig m path default_headers payload rtype in
  let res := bind (Login.handleSubmit net) (fun _ => request next config) w in
  exists login_request c,
    sent (browser (snd res))
    = (sent (browser w) ++ [login_request; c])%list
    /\ method c = m /\ url c = path
    /\ headers c !! "Authorization" = Some ("Bearer " ++ t).
Proof.
  destruct Hok as [Hout Hvalid]. intros config res. subst res.
  unfold bind. rewrite handleSubmit_run. cbv zeta.
  rewrite Hout, Hvalid, Hbody.
  eexists _, _. rewrite ClientFacts.request_sent.
  set (c0 := Spec.outgoing (Spec.login_config _) (browser w)).
  unfold with_location, with_toast, with_storage, with_sent.
  cbn [fst snd browser localStorage sent].
  split; [rewrite <- app_assoc; reflexivity|].
  unfold Spec.outgoing. cbn [browser localStorage].
  rewrite lookup_insert_eq.
  apply String.eqb_neq in Hne. rewrite Hne. cbn.
  repeat (split; [reflexivity|]). apply lookup_insert_eq.
Qed.

Lemma login_then_request_is_authorized_witness :
  let net : Network LoginData := Samples.answers 200 (WithToken "jwt-abc") in
  let next : Network (list Alert) := Samples.answers 200 [] in
  let w := mkWorld (Samples.browser_at {[auth_token := "stale"]} "/login" 0.5)
             (Login.mkState false (mkCredentials "admin" "password")) in
  (Spec.accepted
     (net (Spec.outgoing (Spec.login_config (Login.credentials (page w)))
             (browser w))) (mkResponse 200 (WithToken "jwt-abc"))
   /\ "jwt-abc" <> "")
  /\ exists login_request c,
       sent (browser (snd (bind (Login.handleSubmit net)
                             (fun _ => getAlerts next) w)))
       = [login_request; c]
       /\ headers c !! "Authorization" = Some "Bearer jwt-abc".
Proof.
  intros net next w.
  assert (Hok : Spec.accepted
                  (net (Spec.outgoing
                          (Spec.login_config (Login.credentials (page w)))
                          (browser w))) (mkResponse 200 (WithToken "jwt-abc")))
    by (split; reflexivity).
  assert (Hne : "jwt-abc" <> "") by discriminate.
  split; [split; [exact Hok | exact Hne]|].
  destruct (login_then_request_is_authorized net w _ "jwt-abc" next
              GET "/api/alerts" None None Hok eq_refl Hne)
    as (lr & c & Hsent & _ & _ & Hh).
  exists lr, c. split; [exact Hsent | exact Hh].
Defined.

(** X24.  What the user types is what is sent: after typing a username
    and a password into the form, in either order, a submission posts
    exactly those two values as the body of the login request; typing
    alone reaches neither the network nor the storage. *)
Theorem typed_credentials_are_sent
    (net : Network LoginData) (w : World Login.State) (u p : string) :
  let typed := bind (Login.changeUsername u)
                 (fun _ => Login.changePassword p) in
  let typed' := bind (Login.changePassword p)
                  (fun _ => Login.changeUsername u) in
  typed w = (Return tt,
             mkWorld (browser w)
               (Login.mkState (Login.isLoading (page w)) (mkCredentials u p)))
  /\ typed' w = typed w
  /\ exists c,
       sent (browser (snd (bind typed (fun _ => Login.handleSubmit net) w)))
       = (sent (browser w) ++ [c])%list
       /\ method c = POST /\ url c = "/api/login"
       /\ body c = Some (mkCredentials u p).
Proof.
  intros typed typed'. subst typed typed'.
  split; [reflexivity|]. split; [reflexivity|].
  unfold bind at 1.
  change (bind (Login.changeUsername u) (fun _ => Login.changePassword p) w)
    with (@Return unit tt,
          mkWorld (browser w)
            (Login.mkState (Login.isLoading (page w)) (mkCredentials u p))).
  cbv beta iota.
  destruct (handleSubmit_request net
              (mkWorld (browser w)
                 (Login.mkState (Login.isLoading (page w))
                    (mkCredentials u p))))
    as (c & Hs & Hm & Hu & Hb).
  exists c. cbn [browser page Login.credentials] in *. auto.
Qed.

(** X11.  The logout of the layout shell ends the session: the token is
    removed, every other stored key is kept, the browser is at /login, and
    a request made afterwards goes out without an Authorization header. *)
Theorem logout_ends_the_session {D : Type}
    (w : World Layout.State) (next : Network D) (m : Method) (path : string)
    (payload : option LoginCredentials) (rtype : option string) :
  let res := Layout.handleLogout w in
  let b' := browser (snd res) in
  let config := mkConfig m path default_headers payload rtype in
  fst res = Return tt
  /\ localStorage b' !! auth_token = None
  /\ (forall k, k <> auth_token ->
                localStorage b' !! k = localStorage (browser w) !! k)
  /\ location b' = "/login"
  /\ page (snd res) = page w
  /\ sent (browser (snd (request next config (snd res))))
     = (sent (browser w) ++ [config])%list
  /\ headers config !! "Authorization" = None.
Proof.
  intros res b' config. subst b' res.
  unfold Layout.handleLogout, bind, removeItem, navigate, modify_browser.
  cbn [fst snd browser page].
  split; [reflexivity|].
  split; [apply lookup_delete_eq|].
  split; [intros k Hk; apply lookup_delete_ne; congruence|].
  split; [reflexivity|]. split; [reflexivity|].
  split; [|reflexivity].
  rewrite ClientFacts.request_sent.
  unfold Spec.outgoing, with_location, with_storage.
  cbn [browser localStorage sent]. rewrite lookup_delete_eq. reflexivity.
Qed.

Ltac one_active :=
  split; [lia|];
  split; [intros ? [<-|[]]; split; [cbn; auto 6 | reflexivity]|];
  split; [reflexivity | cbn; auto 6].

(** X12.  The sidebar highlights the entry of the current page and no
    other: a link has the active class exactly when the path is its
    address, at most one link is active, and none is on a path that is not
    among the four addresses (the login view, for one). *)
Theorem sidebar_highlights_current_page (pathname : string) :
  let active := List.filter (Layout.isActive pathname) Layout.navigation in
  (forall item,
      Layout.linkClass pathname item
      = "bg-gradient-primary text-white shadow-card"
      <-> pathname = Layout.nav_href item)
  /\ (length active <= 1)%nat
  /\ (forall item, In item active ->
                   In item Layout.navigation
                   /\ Layout.nav_href item = pathname)
  /\ (In pathname (map Layout.nav_href Layout.navigation)
      <-> length active = 1%nat).
Proof.
  intros active. subst active. split.
  { intros item. unfold Layout.linkClass, Layout.isActive.
    destruct (String.eqb_spec pathname (Layout.nav_href item)) as [E|N].
    - tauto.
    - split; [discriminate|contradiction]. }
  unfold Layout.navigation, Layout.isActive.
  cbn [List.filter Layout.nav_href map].
  destruct (String.eqb_spec pathname "/alerts") as [E1|N1];
    [subst pathname; cbn; one_active|].
  destruct (String.eqb_spec pathname "/locations") as [E2|N2];
    [subst pathname; cbn; one_active|].
  destruct (String.eqb_spec pathname "/readings") as [E3|N3];
    [subst pathname; cbn; one_active|].
  destruct (String.eqb_spec pathname "/reports") as [E4|N4];
    [subst pathname; cbn; one_active|].
  cbn. split; [lia|]. split; [intros item []|].
  split; [|discriminate].
  intros [H|[H|[H|[H|[]]]]]; congruence.
Qed.

End SessionFacts.

(** ** The data pages: what a fetch does in every case *)

Module PageFacts.
Import Effects Api.

(** The loop of the Readings fallback returns, and draws random numbers
    without touching anything else. *)
Lemma mockLoop_frame (fuel i : nat) (now : Z) (acc : list Reading)
    (w : World Readings.State) :
  exists l n,
    Readings.mockLoop fuel i now acc w
    = (Return l,
       mkWorld (mkBrowser (localStorage (browser w)) (location (browser w))
                  (toasts (browser w)) (sent (browser w))
                  (clock (browser w)) (clock_reads (browser w))
                  (random (browser w)) (n + random_draws (browser w)))
               (page w)).
Proof.
  revert i acc w. induction fuel as [|fuel IH]; intros i acc w.
  - exists acc, 0%nat. destruct w as [[] ?]. reflexivity.
  - cbn [Readings.mockLoop]. destruct (i <? 24)%nat.
    + cbv [bind math_random]. cbn [browser page].
      match goal with
      | |- context [Readings.mockLoop fuel ?i' now ?acc' ?w'] =>
          destruct (IH i' acc' w') as (l & n & E); rewrite E
      end.
      exists l, (n + 3)%nat. cbn [browser page localStorage location toasts
        sent clock clock_reads random random_draws].
      do 3 f_equal. lia.
    + exists acc, 0%nat. destruct w as [[] ?]. reflexivity.
Qed.

(** A fetch is run once, on the side, and its result is named. *)
Ltac run_fetch :=
  cbv [finally try_catch bind set_page api_get
       Alerts.fetchAlerts Alerts.setLoading Alerts.setAlerts getAlerts
       Locations.fetchLocations Locations.setLoading Locations.setLocations
       getLocations
       Readings.fetchReadings Readings.setLoading Readings.setReadings
       getReadings];
  rewrite ApiFacts.request_run; cbv zeta; cbn [browser page];
  unfold toast, modify_browser, date_now, Spec.signed_out, Spec.after_send,
    with_toast, with_sent, with_location, with_storage;
  cbn [browser page clock clock_reads fst snd localStorage location toasts
       sent random random_draws].

Ltac finish_run E :=
  try match type of E with
      | context [Readings.mockLoop ?f ?i ?now ?acc ?w] =>
          let F := fresh "F" in
          destruct (mockLoop_frame f i now acc w) as (?l & ?n & F);
          rewrite F in E; clear F
      end;
  cbv beta iota in E; injection E as <- <-;
  cbn [fst snd browser page localStorage location toasts sent].

Ltac accepted_case r V :=
  split; [reflexivity|]; split; [reflexivity|];
  left; exists r; split; [split; [reflexivity | exact V]|]; repeat split.

Ltac rejected_case :=
  split; [reflexivity|]; split; [reflexivity|];
  right; split; [first [assumption | exact I]|]; repeat split.

Lemma fetchAlerts_cases (net : Network (list Alert)) (w : World Alerts.State) :
  Expected.fetch_cases Alerts.fetchAlerts "/api/alerts"
    (fun d _ => Alerts.mkState d false)
    (fun b _ => Alerts.mkState (Expected.alerts_from b) false)
    Spec.alerts_toast net w.
Proof.
  unfold Expected.fetch_cases. cbv zeta.
  destruct (Alerts.fetchAlerts net w) as [res w'] eqn:E. revert E. run_fetch.
  change (mkConfig GET "/api/alerts" default_headers None None)
    with (Expected.get_config "/api/alerts").
  unfold Spec.storage_after, Spec.location_after, Spec.unauthorized.
  destruct (net _) as [r|]; cbv beta iota.
  - destruct (validateStatus (status_code r)) eqn:V; cbv beta iota.
    + intros E; finish_run E. accepted_case r V.
    + cbn [Spec.transport_error response_status Spec.rejected].
      destruct (status_code r =? 401); intros E; finish_run E; rejected_case.
  - intros E; finish_run E. rejected_case.
Qed.

Lemma fetchLocations_cases (net : Network (list Location))
    (w : World Locations.State) :
  Expected.fetch_cases Locations.fetchLocations "/api/locations"
    (fun d s => Locations.mkState d false (Locations.viewMode s))
    (fun _ s => Locations.mkState Locations.mockLocations false
                  (Locations.viewMode s))
    Spec.locations_toast net w.
Proof.
  unfold Expected.fetch_cases. cbv zeta.
  destruct (Locations.fetchLocations net w) as [res w'] eqn:E. revert E.
  run_fetch.
  change (mkConfig GET "/api/locations" default_headers None None)
    with (Expected.get_config "/api/locations").
  unfold Spec.storage_after, Spec.location_after, Spec.unauthorized.
  destruct (net _) as [r|]; cbv beta iota.
  - destruct (validateStatus (status_code r)) eqn:V; cbv beta iota.
    + intros E; finish_run E. accepted_case r V.
    + cbn [Spec.transport_error response_status Spec.rejected].
      destruct (status_code r =? 401); intros E; finish_run E; rejected_case.
  - intros E; finish_run E. rejected_case.
Qed.

Lemma fetchReadings_cases (net : Network (list Reading))
    (w : World Readings.State) :
  Expected.fetch_cases Readings.fetchReadings "/api/readings"
    (fun d s => Readings.mkState d false (Readings.selectedLocation s)
                  (Readings.timeRange s))
    (fun b s => Readings.mkState (Expected.readings_from b) false
                  (Readings.selectedLocation s) (Readings.timeRange s))
    Spec.readings_toast net w.
Proof.
  unfold Expected.fetch_cases. cbv zeta.
  pose proof (FallbackFacts.fetchReadings_rejected net w) as Hp.
  destruct (Readings.fetchReadings net w) as [res w'] eqn:E.
  cbn [snd] in Hp. revert E. run_fetch.
  change (mkConfig GET "/api/readings" default_headers None None)
    with (Expected.get_config "/api/readings").
  unfold Spec.storage_after, Spec.location_after, Spec.unauthorized.
  destruct (net _) as [r|]; cbv beta iota.
  - destruct (validateStatus (status_code r)) eqn:V; cbv beta iota.
    + intros E; finish_run E. accepted_case r V.
    + specialize (Hp V).
      cbn [Spec.transport_error response_status Spec.rejected].
      destruct (status_code r =? 401); intros E; finish_run E;
        cbn [page] in Hp; rewrite Hp; rejected_case.
  - specialize (Hp I). intros E; finish_run E.
    cbn [page] in Hp; rewrite Hp; rejected_case.
Qed.

Section FromCases.
Context {D S : Type}.
Variables (fetch : Network D -> M S unit) (path : string)
          (shown : D -> S -> S) (fallback : Browser -> S -> S)
          (notice : Toast) (net : Network D) (w : World S).
Hypothesis cases : Expected.fetch_cases fetch path shown fallback notice net w.

Lemma accepted_not_rejected (out : Outcome D) (r : Response D) :
  Spec.accepted out r -> Spec.rejected out -> False.
Proof. intros [-> V] R. cbn in R. congruence. Qed.

Lemma cases_accepted (r : Response D) :
  Spec.accepted (net (Spec.outgoing (Expected.get_config path) (browser w))) r ->
  page (snd (fetch net w)) = shown (data r) (page w)
  /\ toasts (browser (snd (fetch net w))) = toasts (browser w)
  /\ localStorage (browser (snd (fetch net w))) = localStorage (browser w)
  /\ location (browser (snd (fetch net w))) = location (browser w).
Proof.
  intros A. destruct cases as (_ & _ & [(r' & A' & H)|(R & _)]).
  - destruct A as [E _], A' as [E' _]. rewrite E in E'.
    injection E' as <-. exact H.
  - destruct (accepted_not_rejected _ _ A R).
Qed.

Lemma cases_rejected :
  Spec.rejected (net (Spec.outgoing (Expected.get_config path) (browser w))) ->
  page (snd (fetch net w)) = fallback (browser w) (page w)
  /\ toasts (browser (snd (fetch net w))) = (toasts (browser w) ++ [notice])%list
  /\ localStorage (browser (snd (fetch net w)))
     = Spec.storage_after
         (net (Spec.outgoing (Expected.get_config path) (browser w)))
         (browser w)
  /\ location (browser (snd (fetch net w)))
     = Spec.location_after
         (net (Spec.outgoing (Expected.get_config path) (browser w)))
         (browser w).
Proof.
  intros R. destruct cases as (_ & _ & [(r' & A' & _)|(_ & H)]).
  - destruct (accepted_not_rejected _ _ A' R).
  - exact H.
Qed.

Lemma cases_settled :
  fst (fetch net w) = Return tt
  /\ length (sent (browser (snd (fetch net w))))
     = Datatypes.S (length (sent (browser w)))
  /\ ((exists d, page (snd (fetch net w)) = shown d (page w))
      \/ page (snd (fetch net w)) = fallback (browser w) (page w)).
Proof.
  destruct cases as (R & Hs & H). split; [exact R|]. split.
  - rewrite Hs, length_app. cbn. lia.
  - destruct H as [(r & _ & Hp & _)|(_ & Hp & _)]; eauto.
Qed.
End FromCases.

(** X13.  When the server accepts the request, each data page shows the
    response and nothing else: the list of its state is the response body
    itself, so an empty answer is shown as an empty list and the fallback
    is not used; no notification is raised, storage and location are
    untouched, and loading ends. *)
Theorem accepted_fetch_shows_the_response
    (netA : Network (list Alert)) (wA : World Alerts.State)
    (netL : Network (list Location)) (wL : World Locations.State)
    (netR : Network (list Reading)) (wR : World Readings.State)
    (rA : Response (list Alert)) (rL : Response (list Location))
    (rR : Response (list Reading))
    (HA : Spec.accepted (netA (Spec.outgoing
             (Expected.get_config "/api/alerts") (browser wA))) rA)
    (HL : Spec.accepted (netL (Spec.outgoing
             (Expected.get_config "/api/locations") (browser wL))) rL)
    (HR : Spec.accepted (netR (Spec.outgoing
             (Expected.get_config "/api/readings") (browser wR))) rR) :
  let a' := snd (Alerts.fetchAlerts netA wA) in
  let l' := snd (Locations.fetchLocations netL wL) in
  let r' := snd (Readings.fetchReadings netR wR) in
  (page a' = Alerts.mkState (data rA) false
   /\ Alerts.render (page a') = Alerts.Rows (data rA)
   /\ toasts (browser a') = toasts (browser wA)
   /\ localStorage (browser a') = localStorage (browser wA)
   /\ location (browser a') = location (browser wA))
  /\ (page l' = Locations.mkState (data rL) false
                  (Locations.viewMode (page wL))
      /\ toasts (browser l') = toasts (browser wL)
      /\ localStorage (browser l') = localStorage (browser wL)
      /\ location (browser l') = location (browser wL))
  /\ (page r' = Readings.mkState (data rR) false
                  (Readings.selectedLocation (page wR))
                  (Readings.timeRange (page wR))
      /\ toasts (browser r') = toasts (browser wR)
      /\ localStorage (browser r') = localStorage (browser wR)
      /\ location (browser r') = location (browser wR)).
Proof.
  intros a' l' r'. subst a' l' r'.
  destruct (cases_accepted _ _ _ _ _ _ _ (fetchAlerts_cases netA wA) _ HA)
    as (PA & TA & SA & LA).
  destruct (cases_accepted _ _ _ _ _ _ _ (fetchLocations_cases netL wL) _ HL)
    as (PL & TL & SL & LL).
  destruct (cases_accepted _ _ _ _ _ _ _ (fetchReadings_cases netR wR) _ HR)
    as (PR & TR & SR & LR).
  rewrite PA. repeat split; assumption.
Qed.

Lemma accepted_fetch_shows_the_response_witness :
  let netA : Network (list Alert) := Samples.answers 200 [] in
  let netL : Network (list Location) := Samples.answers 200 Samples.stations in
  let netR : Network (list Reading) :=
    Samples.answers 204 Samples.mixed_readings in
  let wA := mkWorld (Samples.browser_at ∅ "/alerts" 0.5) Alerts.initial in
  let wL := mkWorld (Samples.browser_at ∅ "/locations" 0.5)
              Locations.initial in
  let wR := mkWorld (Samples.browser_at ∅ "/readings" 0.5) Readings.initial in
  (Spec.accepted (netA (Spec.outgoing (Expected.get_config "/api/alerts")
                          (browser wA))) (mkResponse 200 [])
   /\ Spec.accepted (netL (Spec.outgoing (Expected.get_config "/api/locations")
                             (browser wL))) (mkResponse 200 Samples.stations)
   /\ Spec.accepted (netR (Spec.outgoing (Expected.get_config "/api/readings")
                             (browser wR)))
        (mkResponse 204 Samples.mixed_readings))
  /\ Alerts.render (page (snd (Alerts.fetchAlerts netA wA))) = Alerts.Rows [].
Proof.
  intros netA netL netR wA wL wR.
  assert (HA : Spec.accepted (netA (Spec.outgoing
                  (Expected.get_config "/api/alerts") (browser wA)))
                 (mkResponse 200 [])) by (split; reflexivity).
  assert (HL : Spec.accepted (netL (Spec.outgoing
                  (Expected.get_config "/api/locations") (browser wL)))
                 (mkResponse 200 Samples.stations)) by (split; reflexivity).
  assert (HR : Spec.accepted (netR (Spec.outgoing
                  (Expected.get_config "/api/readings") (browser wR)))
                 (mkResponse 204 Samples.mixed_readings))
    by (split; reflexivity).
  split; [split; [exact HA | split; [exact HL | exact HR]]|].
  destruct (accepted_fetch_shows_the_response netA wA netL wL netR wR
              _ _ _ HA HL HR) as ((_ & Hrender & _) & _).
  exact Hrender.
Defined.

(** X14.  A fetch of a data page always settles: whatever the network
    does, the fetch itself never rejects, loading ends, exactly one request
    has gone out, and the choices of the user are kept (the view mode of
    the Locations page, the selected location and the time range of the
    Readings page). *)
Theorem fetch_always_settles
    (netA : Network (list Alert)) (wA : World Alerts.State)
    (netL : Network (list Location)) (wL : World Locations.State)
    (netR : Network (list Reading)) (wR : World Readings.State) :
  let a' := Alerts.fetchAlerts netA wA in
  let l' := Locations.fetchLocations netL wL in
  let r' := Readings.fetchReadings netR wR in
  (fst a' = Return tt
   /\ Alerts.loading (page (snd a')) = false
   /\ length (sent (browser (snd a'))) = S (length (sent (browser wA))))
  /\ (fst l' = Return tt
      /\ Locations.loading (page (snd l')) = false
      /\ Locations.viewMode (page (snd l')) = Locations.viewMode (page wL)
      /\ length (sent (browser (snd l'))) = S (length (sent (browser wL))))
  /\ (fst r' = Return tt
      /\ Readings.loading (page (snd r')) = false
      /\ Readings.selectedLocation (page (snd r'))
         = Readings.selectedLocation (page wR)
      /\ Readings.timeRange (page (snd r')) = Readings.timeRange (page wR)
      /\ length (sent (browser (snd r'))) = S (length (sent (browser wR)))).
Proof.
  intros a' l' r'. subst a' l' r'.
  destruct (cases_settled _ _ _ _ _ _ _ (fetchAlerts_cases netA wA))
    as (RA & SA & PA).
  destruct (cases_settled _ _ _ _ _ _ _ (fetchLocations_cases netL wL))
    as (RL & SL & PL).
  destruct (cases_settled _ _ _ _ _ _ _ (fetchReadings_cases netR wR))
    as (RR & SR & PR).
  split; [|split].
  - split; [exact RA|]. split; [|exact SA].
    destruct PA as [[d ->]| ->]; reflexivity.
  - split; [exact RL|].
    destruct PL as [[d ->]| ->]; repeat split; exact SL.
  - split; [exact RR|].
    destruct PR as [[d ->]| ->]; repeat split; exact SR.
Qed.

(** X15.  A rejected fetch of a data page raises the notification of the
    page, once, and nothing else reaches the user's session unless the
    rejection is a 401 response: then the token is removed and the browser
    is sent to /login, while the page still receives its fallback; on any
    other rejection storage and location are as before. *)
Theorem rejected_fetch_effects
    (netA : Network (list Alert)) (wA : World Alerts.State)
    (netL : Network (list Location)) (wL : World Locations.State)
    (netR : Network (list Reading)) (wR : World Readings.State)
    (HA : Spec.rejected (netA (Spec.outgoing
             (Expected.get_config "/api/alerts") (browser wA))))
    (HL : Spec.rejected (netL (Spec.outgoing
             (Expected.get_config "/api/locations") (browser wL))))
    (HR : Spec.rejected (netR (Spec.outgoing
             (Expected.get_config "/api/readings") (browser wR)))) :
  let outA := netA (Spec.outgoing (Expected.get_config "/api/alerts")
                      (browser wA)) in
  let outL := netL (Spec.outgoing (Expected.get_config "/api/locations")
                      (browser wL)) in
  let outR := netR (Spec.outgoing (Expected.get_config "/api/readings")
                      (browser wR)) in
  let a' := browser (snd (Alerts.fetchAlerts netA wA)) in
  let l' := browser (snd (Locations.fetchLocations netL wL)) in
  let r' := browser (snd (Readings.fetchReadings netR wR)) in
  let effects {D} (out : Outcome D) (b b' : Browser) (notice : Toast) :=
    toasts b' = (toasts b ++ [notice])%list
    /\ (response_status (Spec.transport_error out) = Some 401 ->
        localStorage b' = delete auth_token (localStorage b)
        /\ location b' = "/login")
    /\ (response_status (Spec.transport_error out) <> Some 401 ->
        localStorage b' = localStorage b /\ location b' = location b) in
  effects outA (browser wA) a' Spec.alerts_toast
  /\ effects outL (browser wL) l' Spec.locations_toast
  /\ effects outR (browser wR) r' Spec.readings_toast.
Proof.
  intros outA outL outR a' l' r' effects.
  assert (G : forall D (out : Outcome D) b b' notice,
             toasts b' = (toasts b ++ [notice])%list ->
             localStorage b' = Spec.storage_after out b ->
             location b' = Spec.location_after out b ->
             effects D out b b' notice).
  { intros D out b b' notice Ht Hs Hl. subst effects. cbv beta.
    unfold Spec.storage_after, Spec.location_after, Spec.unauthorized in *.
    split; [exact Ht|]. rewrite Hs, Hl.
    destruct (response_status (Spec.transport_error out)) as [s|].
    - destruct (Z.eqb_spec s 401) as [E|N].
      + split; [auto|congruence].
      + split; [intros E; congruence|auto].
    - split; [discriminate|auto]. }
  subst outA outL outR a' l' r'.
  destruct (cases_rejected _ _ _ _ _ _ _ (fetchAlerts_cases netA wA) HA)
    as (_ & TA & SA & LA).
  destruct (cases_rejected _ _ _ _ _ _ _ (fetchLocations_cases netL wL) HL)
    as (_ & TL & SL & LL).
  destruct (cases_rejected _ _ _ _ _ _ _ (fetchReadings_cases netR wR) HR)
    as (_ & TR & SR & LR).
  split; [|split]; apply G; assumption.
Qed.

Lemma rejected_fetch_effects_witness :
  let netA : Network (list Alert) := Samples.answers 401 [] in
  let netL : Network (list Location) := Samples.down in
  let netR : Network (list Reading) := Samples.answers 500 [] in
  let wA := mkWorld (Samples.browser_at {[auth_token := "tok"]} "/alerts" 0.5)
              Alerts.initial in
  let wL := mkWorld (Samples.browser_at ∅ "/locations" 0.5)
              Locations.initial in
  let wR := mkWorld (Samples.browser_at ∅ "/readings" 0.5) Readings.initial in
  (Spec.rejected (netA (Spec.outgoing (Expected.get_config "/api/alerts")
                          (browser wA)))
   /\ Spec.rejected (netL (Spec.outgoing
                            (Expected.get_config "/api/locations")
                            (browser wL)))
   /\ Spec.rejected (netR (Spec.outgoing
                            (Expected.get_config "/api/readings")
                            (browser wR))))
  /\ location (browser (snd (Alerts.fetchAlerts netA wA))) = "/login"
  /\ toasts (browser (snd (Alerts.fetchAlerts netA wA)))
     = [Spec.alerts_toast].
Proof.
  intros netA netL netR wA wL wR.
  assert (HA : Spec.rejected (netA (Spec.outgoing
                  (Expected.get_config "/api/alerts") (browser wA))))
    by reflexivity.
  assert (HL : Spec.rejected (netL (Spec.outgoing
                  (Expected.get_config "/api/locations") (browser wL))))
    by exact I.
  assert (HR : Spec.rejected (netR (Spec.outgoing
                  (Expected.get_config "/api/readings") (browser wR))))
    by reflexivity.
  split; [split; [exact HA | split; [exact HL | exact HR]]|].
  destruct (rejected_fetch_effects netA wA netL wL netR wR HA HL HR)
    as ((Ht & H401 & _) & _).
  split; [exact (proj2 (H401 eq_refl)) | exact Ht].
Defined.

End PageFacts.

(** ** Readings: the options of the filter *)

Module FilterFacts.
Import Effects Api Readings.

Lemma existsb_eqb_In (v : string) (seen : list string) :
  existsb (String.eqb v) seen = true <-> In v seen.
Proof.
  rewrite existsb_exists. split.
  - intros (x & Hx & E). apply String.eqb_eq in E. subst. exact Hx.
  - intros H. exists v. split; [exact H | apply String.eqb_refl].
Qed.

Lemma distinct_from_In seen values v :
  In v (JS.distinct_from seen values) <-> In v values /\ ~ In v seen.
Proof.
  revert seen. induction values as [|x rest IH]; intros seen; simpl.
  - tauto.
  - destruct (existsb (String.eqb x) seen) eqn:E.
    + apply existsb_eqb_In in E. rewrite IH.
      intuition (subst; tauto).
    + assert (N : ~ In x seen)
        by (intros H; apply existsb_eqb_In in H; congruence).
      simpl. rewrite IH. simpl.
      destruct (string_dec x v) as [->|D]; intuition congruence.
Qed.





Lemma count_other s r rest :
  reading_location r <> s ->
  Spec.count_at s (r :: rest) = Spec.count_at s rest.
Proof.
  intros N. unfold Spec.count_at. simpl.
  apply String.eqb_neq in N. rewrite N. reflexivity.
Qed.

Lemma sum_counts_other (options : list string) r rest :
  ~ In (reading_location r) options ->
  list_sum (map (fun s => Spec.count_at s (r :: rest)) options)
  = list_sum (map (fun s => Spec.count_at s rest) options).
Proof.
  induction options as [|o os IH]; simpl; intros N; [reflexivity|].
  rewrite count_other by (intros E; apply N; left; congruence).
  rewrite IH by tauto. reflexivity.
Qed.

Lemma not_seen_split v seen rs :
  ~ In v seen ->
  (Spec.count_at v rs + length (Spec.not_seen (v :: seen) rs))%nat
  = length (Spec.not_seen seen rs).
Proof.
  intros N. unfold Spec.count_at, Spec.not_seen.
  induction rs as [|x rest IH]; simpl; [reflexivity|].
  destruct (String.eqb_spec (reading_location x) v) as [E|D]; simpl.
  - assert (existsb (String.eqb (reading_location x)) seen = false) as ->.
    { destruct (existsb _ seen) eqn:X; [|reflexivity].
      apply existsb_eqb_In in X. congruence. }
    simpl. f_equal. exact IH.
  - destruct (existsb (String.eqb (reading_location x)) seen); simpl;
      [|rewrite Nat.add_succ_r; f_equal]; exact IH.
Qed.

Lemma list_sum_cons (x : nat) (l : list nat) :
  list_sum (x :: l) = (x + list_sum l)%nat.
Proof. reflexivity. Qed.

Lemma distinct_counts seen rs :
  list_sum (map (fun s => Spec.count_at s rs)
              (JS.distinct_from seen (map reading_location rs)))
  = length (Spec.not_seen seen rs).
Proof.
  revert seen. induction rs as [|r rest IH]; intros seen; [reflexivity|].
  cbn [map JS.distinct_from].
  destruct (existsb (String.eqb (reading_location r)) seen) eqn:X.
  - rewrite sum_counts_other.
    + rewrite IH. unfold Spec.not_seen. simpl. rewrite X. reflexivity.
    + intros H. apply distinct_from_In in H.
      apply existsb_eqb_In in X. tauto.
  - assert (N : ~ In (reading_location r) seen)
      by (intros H; apply existsb_eqb_In in H; congruence).
    cbn [map]. rewrite list_sum_cons.
    rewrite sum_counts_other.
    + rewrite IH.
      unfold Spec.count_at at 1. simpl. rewrite String.eqb_refl. simpl.
      fold (Spec.count_at (reading_location r) rest).
      rewrite (not_seen_split _ _ _ N).
      unfold Spec.not_seen. simpl. rewrite X. reflexivity.
    + intros H. apply distinct_from_In in H. simpl in H. tauto.
Qed.

(** X17.  The location filter partitions the readings: when no reading is
    located at a place named 'all', the datasets shown under the options
    of the select, one per location, add up to the fetched readings, each
    reading being shown under exactly one of them. *)
Theorem filter_partitions_readings (rs : list Reading)
    (Hall : Forall (fun r => reading_location r <> "all") rs) :
  list_sum (map (fun s => length (filteredReadings rs s)) (locations rs))
  = length rs
  /\ (forall r, In r rs ->
        exists s, In s (locations rs) /\ In r (filteredReadings rs s)
                  /\ forall s', In s' (locations rs) ->
                                In r (filteredReadings rs s') -> s' = s).
Proof.
  assert (Hne : forall s, In s (locations rs) -> s <> "all").
  { intros s H. unfold locations, JS.distinct in H.
    apply distinct_from_In in H. destruct H as [H _].
    apply in_map_iff in H. destruct H as (r & <- & Hr).
    exact (proj1 (List.Forall_forall _ _) Hall r Hr). }
  assert (Hf : forall s, In s (locations rs) ->
                 filteredReadings rs s
                 = List.filter (fun r => String.eqb (reading_location r) s) rs).
  { intros s H. unfold filteredReadings.
    apply Hne, String.eqb_neq in H. rewrite H. reflexivity. }
  split.
  - rewrite (map_ext_in _ (fun s => Spec.count_at s rs)).
    + unfold locations, JS.distinct. rewrite distinct_counts.
      unfold Spec.not_seen.
      clear. induction rs as [|r rest IH]; simpl; [reflexivity|].
      f_equal. exact IH.
    + intros s H. rewrite (Hf s H). reflexivity.
  - intros r Hr. exists (reading_location r).
    assert (Hin : In (reading_location r) (locations rs)).
    { unfold locations, JS.distinct. apply distinct_from_In.
      split; [apply in_map; exact Hr | simpl; tauto]. }
    split; [exact Hin|]. split.
    + rewrite (Hf _ Hin). apply filter_In.
      split; [exact Hr | apply String.eqb_refl].
    + intros s' Hs' Hr'. rewrite (Hf _ Hs') in Hr'.
      apply filter_In in Hr'. destruct Hr' as [_ E].
      apply String.eqb_eq in E. congruence.
Qed.

Lemma filter_partitions_readings_witness :
  Forall (fun r => reading_location r <> "all") Samples.mixed_readings
  /\ list_sum (map (fun s => length (filteredReadings Samples.mixed_readings s))
                (locations Samples.mixed_readings))
     = 4%nat.
Proof.
  assert (H : Forall (fun r => reading_location r <> "all")
                Samples.mixed_readings)
    by (repeat constructor; discriminate).
  split; [exact H|].
  exact (proj1 (filter_partitions_readings Samples.mixed_readings H)).
Defined.

(** X18.  Filtering is idempotent and works reading by reading: filtering
    the displayed dataset again by the same selection changes nothing, the
    dataset of two lists put end to end is the two datasets put end to end,
    and the dataset is never longer than the list. *)
Theorem filter_is_idempotent (rs more : list Reading) (selected : string) :
  filteredReadings (filteredReadings rs selected) selected
  = filteredReadings rs selected
  /\ filteredReadings (rs ++ more) selected
     = (filteredReadings rs selected ++ filteredReadings more selected)%list
  /\ (length (filteredReadings rs selected) <= length rs)%nat
  /\ sublist (filteredReadings rs selected) rs.
Proof.
  unfold filteredReadings. destruct (String.eqb selected "all").
  - repeat split; [lia | reflexivity].
  - split; [|split; [apply List.filter_app|split]].
    + induction rs as [|r rest IH]; simpl; [reflexivity|].
      destruct (String.eqb (reading_location r) selected) eqn:E; simpl;
        [rewrite E, IH; reflexivity | exact IH].
    + apply List.filter_length_le.
    + induction rs as [|r rest IH]; simpl; [constructor|].
      destruct (String.eqb (reading_location r) selected);
        [apply sublist_skip | apply sublist_cons]; exact IH.
Qed.

Lemma filtered_empty rs selected :
  selected <> "all" -> ~ In selected (map reading_location rs) ->
  filteredReadings rs selected = [].
Proof.
  intros Hall Hno. unfold filteredReadings.
  apply String.eqb_neq in Hall. rewrite Hall.
  induction rs as [|r rest IH]; simpl; [reflexivity|].
  simpl in Hno.
  destruct (String.eqb_spec (reading_location r) selected) as [E|N];
    [tauto | apply IH; tauto].
Qed.

Lemma filtered_length_by_locations rs selected :
  selected <> "all" ->
  length (filteredReadings rs selected)
  = length (List.filter (fun l => String.eqb l selected)
              (map reading_location rs)).
Proof.
  intros Hall. unfold filteredReadings.
  apply String.eqb_neq in Hall. rewrite Hall.
  induction rs as [|r rest IH]; simpl; [reflexivity|].
  destruct (String.eqb (reading_location r) selected); simpl; congruence.
Qed.

(** X19.  The selection outlives a refresh, so a fallback can be stored
    and not shown: when a fetch of the Readings page is rejected while a
    location is selected that is not 'all' and not one of the three mock
    locations, the state holds 24 readings, the displayed dataset is empty
    and the pH card shows 0.00; under one of the three mock locations the
    dataset has eight readings. *)
Theorem stale_selection_hides_fallback
    (net : Network (list Reading)) (w : World Readings.State)
    (Hrej : Spec.rejected (net (Spec.outgoing
               (Expected.get_config "/api/readings") (browser w)))) :
  let s' := page (snd (fetchReadings net w)) in
  let selected := selectedLocation (page w) in
  length (readings s') = 24%nat
  /\ (selected <> "all" ->
      ~ In selected ["Riverside Village"; "Mountain Springs"; "Valley View"] ->
      dataset (render s') = [] /\ shown_ph (render s') = JS.Text "0.00")
  /\ (In selected ["Riverside Village"; "Mountain Springs"; "Valley View"] ->
      length (dataset (render s')) = 8%nat).
Proof.
  intros s' selected. subst s' selected.
  rewrite (FallbackFacts.fetchReadings_rejected net w Hrej).
  unfold render. cbn [readings selectedLocation dataset shown_ph].
  set (sel := selectedLocation (page w)).
  pose proof (FallbackFacts.readings_from_locations (browser w)) as Hlocs.
  split; [reflexivity|]. split.
  - intros Hall Hno.
    rewrite (filtered_empty _ _ Hall).
    + split; [reflexivity | vm_compute; reflexivity].
    + rewrite Hlocs. unfold Expected.reading_locations.
      intros H. apply Hno. simpl in H |- *.
      repeat (destruct H as [H|H]; [auto|]). destruct H.
  - intros Hin.
    assert (Hall : sel <> "all")
      by (destruct Hin as [<-|[<-|[<-|[]]]]; discriminate).
    rewrite (filtered_length_by_locations _ _ Hall), Hlocs.
    destruct Hin as [<-|[<-|[<-|[]]]]; reflexivity.
Qed.

Lemma stale_selection_hides_fallback_witness :
  let net : Network (list Reading) := Samples.down in
  let w := mkWorld (Samples.browser_at ∅ "/readings" 0.5)
             (mkState Samples.mixed_readings false "Lake Town" "24h") in
  (Spec.rejected (net (Spec.outgoing (Expected.get_config "/api/readings")
                         (browser w)))
   /\ "Lake Town" <> "all"
   /\ ~ In "Lake Town" ["Riverside Village"; "Mountain Springs"; "Valley View"])
  /\ dataset (render (page (snd (fetchReadings net w)))) = [].
Proof.
  intros net w.
  assert (Hrej : Spec.rejected (net (Spec.outgoing
                    (Expected.get_config "/api/readings") (browser w))))
    by exact I.
  assert (Hall : "Lake Town" <> "all") by discriminate.
  assert (Hno : ~ In "Lake Town"
                  ["Riverside Village"; "Mountain Springs"; "Valley View"])
    by (intros [H|[H|[H|[]]]]; discriminate).
  split; [split; [exact Hrej | split; [exact Hall | exact Hno]]|].
  exact (proj1 (proj1 (proj2 (stale_selection_hides_fallback net w Hrej))
                  Hall Hno)).
Defined.

End FilterFacts.

(** ** Alerts and Locations: cards, badges and rows *)

Module CardFacts.
Import Effects Api.

(** X20.  The three cards of the Alerts page never count an alert twice or
    invent one: their counts add up to at most the number of alerts, and to
    exactly that number when, and only when, every severity is one of
    critical, warning and info; an alert of another severity is listed in
    the table and counted in no card. *)
Theorem alert_cards_partition_known_severities (l : list Alert) :
  (Alerts.criticalCount l + Alerts.warningCount l + Alerts.infoCount l
   <= length l)%nat
  /\ ((Alerts.criticalCount l + Alerts.warningCount l + Alerts.infoCount l
       = length l)%nat
      <-> Forall (fun a => Spec.known_severity (severity a)) l)
  /\ map Alerts.row_alert (Alerts.tableRows l) = l.
Proof.
  unfold Alerts.criticalCount, Alerts.warningCount, Alerts.infoCount,
    Alerts.countBySeverity, Spec.known_severity.
  induction l as [|a rest (IHle & IHeq & IHrows)]; simpl.
  - split; [lia|]. split; [|reflexivity]. split; [constructor|reflexivity].
  - rewrite IHrows. split; [|split; [|reflexivity]].
    + destruct (String.eqb_spec (severity a) "critical") as [E|N1];
        [try rewrite E; simpl; lia|].
      destruct (String.eqb_spec (severity a) "warning") as [E|N2];
        [try rewrite E; simpl; lia|].
      destruct (String.eqb_spec (severity a) "info") as [E|N3];
        [try rewrite E; simpl; lia|]. lia.
    + destruct (String.eqb_spec (severity a) "critical") as [E|N1];
        [try rewrite E; simpl;
         split; [intros H; constructor; [auto|apply IHeq; lia]
                |intros H; inversion H; subst; apply IHeq in H3; lia]|].
      destruct (String.eqb_spec (severity a) "warning") as [E|N2];
        [try rewrite E; simpl;
         split; [intros H; constructor; [auto|apply IHeq; lia]
                |intros H; inversion H; subst; apply IHeq in H3; lia]|].
      destruct (String.eqb_spec (severity a) "info") as [E|N3];
        [try rewrite E; simpl;
         split; [intros H; constructor; [auto|apply IHeq; lia]
                |intros H; inversion H; subst; apply IHeq in H3; lia]|].
      split; [intros H; lia|].
      intros H. inversion H; subst. tauto.
Qed.

Lemma count_rows_by_class (label class : string) (l : list Alert) :
  (forall s, String.eqb (Alerts.getSeverityColor s) class = String.eqb s label) ->
  Alerts.countBySeverity label l
  = length (List.filter (fun r => String.eqb (Alerts.badge_class r) class)
              (Alerts.tableRows l)).
Proof.
  intros H. unfold Alerts.countBySeverity.
  induction l as [|a rest IH]; simpl; [reflexivity|].
  rewrite H. destruct (String.eqb (severity a) label); simpl; congruence.
Qed.

Lemma severity_class_decides (s : string) :
  String.eqb (Alerts.getSeverityColor s) "bg-status-critical text-white"
  = String.eqb s "critical"
  /\ String.eqb (Alerts.getSeverityColor s) "bg-status-warning text-white"
     = String.eqb s "warning"
  /\ String.eqb (Alerts.getSeverityColor s) "bg-status-info text-white"
     = String.eqb s "info".
Proof.
  unfold Alerts.getSeverityColor.
  destruct (String.eqb_spec s "critical") as [->|N1]; [repeat split|].
  destruct (String.eqb_spec s "warning") as [->|N2]; [repeat split|].
  destruct (String.eqb_spec s "info") as [->|N3]; repeat split.
Qed.

(** X21.  On the Alerts page the cards and the badges agree, whatever the
    data: each card counts exactly the rows whose badge has the style of
    its severity, the comparison being exact (case-sensitive) on both
    sides. *)
Theorem alert_cards_agree_with_badges (l : list Alert) :
  let styled class :=
    length (List.filter (fun r => String.eqb (Alerts.badge_class r) class)
              (Alerts.tableRows l)) in
  Alerts.criticalCount l = styled "bg-status-critical text-white"
  /\ Alerts.warningCount l = styled "bg-status-warning text-white"
  /\ Alerts.infoCount l = styled "bg-status-info text-white".
Proof.
  intros styled. subst styled. cbv beta.
  unfold Alerts.criticalCount, Alerts.warningCount, Alerts.infoCount.
  split; [|split]; apply count_rows_by_class; intros s;
    apply (severity_class_decides s).
Qed.






Lemma count_le_styled (label class : string) (l : list Location) :
  (forall s, s = label -> Locations.getStatusColor s = class) ->
  (Locations.countByStatus label l
   <= length (List.filter (fun r => String.eqb (Locations.badge_class r) class)
                (Locations.tableRows l)))%nat.
Proof.
  intros H. unfold Locations.countByStatus.
  induction l as [|x rest IH]; simpl; [lia|].
  destruct (String.eqb_spec (status x) label) as [E|N].
  - rewrite (H _ E), String.eqb_refl. simpl. lia.
  - destruct (String.eqb _ class); simpl; lia.
Qed.

(** X23.  The cards of the Locations page never count a location twice
    and never count more than the badges show: the Active, Warning and
    Inactive counts add up to at most the total, with equality exactly
    when every status is one of the three words in lower case; the Active
    count is at most the number of rows styled as active and the Warning
    count at most the number of rows styled as warning; and the map view
    announces as many stations as the Total card. *)
Theorem location_cards_undercount (l : list Location) (ld : bool) :
  let styled class :=
    length (List.filter (fun r => String.eqb (Locations.badge_class r) class)
              (Locations.tableRows l)) in
  (Locations.activeCount l + Locations.warningCount l
   + Locations.inactiveCount l <= Locations.totalCount l)%nat
  /\ ((Locations.activeCount l + Locations.warningCount l
       + Locations.inactiveCount l = Locations.totalCount l)%nat
      <-> Forall (fun x => Spec.known_status (status x)) l)
  /\ (Locations.activeCount l <= styled "bg-status-success text-white")%nat
  /\ (Locations.warningCount l <= styled "bg-status-warning text-white")%nat
  /\ Locations.render (Locations.mkState l ld Locations.MapView)
     = Locations.MapPlaceholder (Locations.totalCount l)
  /\ Locations.render (Locations.mkState l ld Locations.TableView)
     = Locations.Table (Locations.tableRows l).
Proof.
  intros styled. subst styled. cbv beta.
  split; [|split; [|split; [|split; [|split; reflexivity]]]].
  - unfold Locations.activeCount, Locations.warningCount,
      Locations.inactiveCount, Locations.countByStatus, Locations.totalCount.
    induction l as [|x rest IH]; simpl; [lia|].
    destruct (String.eqb_spec (status x) "active") as [E|N1];
      [try rewrite E; simpl; lia|].
    destruct (String.eqb_spec (status x) "warning") as [E|N2];
      [try rewrite E; simpl; lia|].
    destruct (String.eqb_spec (status x) "inactive") as [E|N3];
      [try rewrite E; simpl; lia|]. lia.
  - unfold Locations.activeCount, Locations.warningCount,
      Locations.inactiveCount, Locations.countByStatus, Locations.totalCount,
      Spec.known_status.
    assert (Hle : forall m : list Location,
               (length (List.filter (fun x => String.eqb (status x) "active") m)
                + length (List.filter (fun x => String.eqb (status x) "warning") m)
                + length (List.filter (fun x => String.eqb (status x) "inactive") m)
                <= length m)%nat).
    { induction m as [|x rest IH]; simpl; [lia|].
      destruct (String.eqb_spec (status x) "active") as [E|N1];
        [try rewrite E; simpl; lia|].
      destruct (String.eqb_spec (status x) "warning") as [E|N2];
        [try rewrite E; simpl; lia|].
      destruct (String.eqb_spec (status x) "inactive") as [E|N3];
        [try rewrite E; simpl; lia|]. lia. }
    induction l as [|x rest IH]; simpl.
    + split; [constructor|reflexivity].
    + pose proof (Hle rest) as Hr.
      destruct (String.eqb_spec (status x) "active") as [E|N1];
        [try rewrite E; simpl;
         split; [intros H; constructor; [auto|apply IH; lia]
                |intros H; inversion H; subst; apply IH in H3; lia]|].
      destruct (String.eqb_spec (status x) "warning") as [E|N2];
        [try rewrite E; simpl;
         split; [intros H; constructor; [auto|apply IH; lia]
                |intros H; inversion H; subst; apply IH in H3; lia]|].
      destruct (String.eqb_spec (status x) "inactive") as [E|N3];
        [try rewrite E; simpl;
         split; [intros H; constructor; [auto|apply IH; lia]
                |intros H; inversion H; subst; apply IH in H3; lia]|].
      split; [intros H; lia|].
      intros H. inversion H; subst. tauto.
  - apply count_le_styled. intros s ->. reflexivity.
  - apply count_le_styled. intros s ->. reflexivity.
Qed.

End CardFacts.
